(** * ACH file service: temporal rule, file endpoints and routing check digit

    A shallow embedding of [server/files.go] (the create and delete
    endpoints and [fileHasOldBatches]) together with the routing-number
    check digit exercised by [validators_test.go].

    Go values are modelled as follows:
    - a [*T] that may be nil is an [option T];
    - an [error] is an [option error], [None] being Go's [nil];
    - a run-time panic is an explicit outcome ([Panics]), and the process
      state reached before the panic is kept;
    - the package-level counters, the clock and the collaborators
      ([Repository], [Service], the logger) live in an explicit [world]. *)

From stdpp Require Import gmap strings list.
From Stdlib Require Import ZArith Lia.

Local Open Scope Z_scope.

(** ** The part of Go's [time] package that [files.go] uses *)

(** A [Time] is an instant (seconds and nanoseconds since the Unix epoch)
    together with a [Location].  A location is taken to be a fixed offset in
    seconds east of UTC; zone transitions are not modelled. *)
Module time.

Record Location := { offset : Z }.

Definition UTC : Location := {| offset := 0 |}.

Record Time := { sec : Z; nsec : Z; loc : Location }.

Definition secondsPerDay : Z := 86400.

(** [t.Before(u)]: instants are compared, locations are ignored. *)
Definition Before (t u : Time) : bool :=
  (sec t <? sec u) || ((sec t =? sec u) && (nsec t <? nsec u)).

(** Days since 1970-01-01 of a proleptic Gregorian date.  Years are
    counted from March so that the leap day comes last. *)
Definition daysFromCivil (y m d : Z) : Z :=
  let y' := if m <=? 2 then y - 1 else y in
  let era := y' `div` 400 in
  let yoe := y' - era * 400 in
  let mp := if 2 <? m then m - 3 else m + 9 in
  let doy := (153 * mp + 2) `div` 5 + d - 1 in
  let doe := yoe * 365 + yoe `div` 4 - yoe `div` 100 + doy in
  era * 146097 + doe - 719468.

(** The proleptic Gregorian date of a day number. *)
Definition civilFromDays (z : Z) : Z * Z * Z :=
  let z' := z + 719468 in
  let era := z' `div` 146097 in
  let doe := z' - era * 146097 in
  let yoe := (doe - doe `div` 1460 + doe `div` 36524 - doe `div` 146096) `div` 365 in
  let doy := doe - (365 * yoe + yoe `div` 4 - yoe `div` 100) in
  let mp := (5 * doy + 2) `div` 153 in
  let d := doy - (153 * mp + 2) `div` 5 + 1 in
  let m := if mp <? 10 then mp + 3 else mp - 9 in
  (if m <=? 2 then yoe + era * 400 + 1 else yoe + era * 400, m, d).

(** [t.Date()]: year, month and day in which [t] occurs, in [t]'s
    location. *)
Definition Date (t : Time) : Z * Z * Z :=
  civilFromDays ((sec t + offset (loc t)) `div` secondsPerDay).

(** [t.Location()]. *)
Definition Location_of (t : Time) : Location := loc t.

(** [time.Date(year, month, day, hour, min, sec, nsec, loc)].  Values out
    of their usual range are normalised by carrying into the next unit. *)
Definition Date_of (year month day hour min sec' nsec' : Z) (l : Location) : Time :=
  let year' := year + (month - 1) `div` 12 in
  let month' := (month - 1) `mod` 12 + 1 in
  let s := sec' + nsec' `div` 1000000000 in
  {| sec := daysFromCivil year' month' day * secondsPerDay
            + hour * 3600 + min * 60 + s - offset l;
     nsec := nsec' `mod` 1000000000;
     loc := l |}.

End time.

(** ** Errors, panics and outcomes *)

(** An argument handed to a [fmt] verb. *)
Inductive fmtArg :=
| ArgString (s : string)
| ArgTime (t : time.Time).

(** Go builds its errors with [errors.New] and [fmt.Errorf]; an error is
  kept as the constructor call that made it. *)
Inductive error :=
| errors_New (text : string)
| fmt_Errorf (format : string) (args : list fmtArg).

Inductive panic :=
| IndexOutOfRange (index : nat) (len : nat)
| NilPointerDereference.

(** Outcome of running a Go function body: it returns, or it panics. *)
Inductive exec (A : Type) :=
| Returns (a : A)
| Panics (p : panic).
Arguments Returns {A} a.
Arguments Panics {A} p.

#[global] Instance exec_ret : MRet exec := fun A a => Returns a.

#[global] Instance exec_bind : MBind exec := fun A B k m =>
match m with
| Returns a => k a
| Panics p => Panics p
end.

(** [s[i]] on a slice: a panic when [i] is out of range. *)
Definition index {A} (s : list A) (i : nat) : exec A :=
match s !! i with
| Some x => Returns x
| None => Panics (IndexOutOfRange i (length s))
end.

(** [for i := range s { body }] for a slice of length [n], started at index
  [i].  The body answers [Returns None] to go on with the next index
  (falling off its end, or [continue]) and [Returns (Some r)] to
  [return r] from the enclosing function; the loop itself answers
  [Returns None] when it runs to completion. *)
Fixpoint forRange {A} (body : nat -> exec (option A)) (i n : nat) : exec (option A) :=
match n with
| O => Returns None
| S n' =>
    match body i with
    | Returns None => forRange body (S i) n'
    | stop => stop
    end
end.

(** ** The ACH file model *)

(** Modelled from the spec: the types of package [ach] that [files.go]
    reads ([File], its header, [Batcher] and [IATBatch]) are declared
    outside the files at hand.  Only the fields and methods that the server
    uses are kept: a file has an [ID], a [Header] with the two routing
    identifiers, [Batches] and [IATBatches]; a batch has a header, which
    may be absent and carries [EffectiveEntryDate], and an identifying
    token [ID()].  The elements of [Batches] are taken to be non-nil. *)
Module ach.

Record BatchHeader := { EffectiveEntryDate : time.Time }.

(** The [Batcher] interface: [GetHeader()] may answer nil. *)
Module Batcher.
Record t := { GetHeader : option BatchHeader; ID : string }.
End Batcher.

(** An international batch, with a header type of its own. *)
Module IATBatch.
Record IATBatchHeader := { EffectiveEntryDate : time.Time }.
Record t := { GetHeader : option IATBatchHeader; ID : string }.
End IATBatch.

Record FileHeader := {
  ImmediateDestination : string;
  ImmediateOrigin : string
}.

Record File := {
  ID : string;
  Header : FileHeader;
  Batches : list Batcher.t;
  IATBatches : list IATBatch.t
}.

Definition setID (f : File) (id : string) : File :=
  {| ID := id; Header := Header f; Batches := Batches f;
     IATBatches := IATBatches f |}.

Definition setIATBatches (f : File) (l : list IATBatch.t) : File :=
  {| ID := ID f; Header := Header f; Batches := Batches f;
     IATBatches := l |}.

Definition setBatches (f : File) (l : list Batcher.t) : File :=
  {| ID := ID f; Header := Header f; Batches := l;
     IATBatches := IATBatches f |}.

End ach.

(** ** The temporal rule: [fileHasOldBatches] *)

(** The start of the day of [now], in [now]'s location. *)
Definition startOfToday (now : time.Time) : time.Time :=
  let '(y, m, d) := time.Date now in
  time.Date_of y m d 0 0 0 0 (time.Location_of now).

Definition batchFormat : string :=
  "file=%s batch=%s has EffectiveEntryDate before today: %v".

Definition iatBatchFormat : string :=
  "file=%s IATBatch=%s has EffectiveEntryDate before today: %v".

(** What either loop does with the header it fetched and the batch it
    fetched it from. *)
Definition checkHeader (format : string) (today : time.Time) (file : ach.File)
    (b : ach.Batcher.t) : exec (option error) :=
  match ach.Batcher.GetHeader b with
  | None => Returns None
  | Some header =>
      if time.Before (ach.EffectiveEntryDate header) today
      then Returns (Some (fmt_Errorf format
                            [ArgString (ach.ID file);
                             ArgString (ach.Batcher.ID b);
                             ArgTime (ach.EffectiveEntryDate header)]))
      else Returns None
  end.

(** Body of [for i := range file.Batches]. *)
Definition batchesBody (today : time.Time) (file : ach.File) (i : nat)
    : exec (option error) :=
  b ← index (ach.Batches file) i;
  checkHeader batchFormat today file b.

(** Body of [for i := range file.IATBatches]: the batch is fetched from
    [file.Batches], at the index the loop is at. *)
Definition iatBatchesBody (today : time.Time) (file : ach.File) (i : nat)
    : exec (option error) :=
  b ← index (ach.Batches file) i;
  checkHeader iatBatchFormat today file b.

Definition batchesLoop (today : time.Time) (file : ach.File) : exec (option error) :=
  forRange (batchesBody today file) 0 (length (ach.Batches file)).

Definition iatBatchesLoop (today : time.Time) (file : ach.File) : exec (option error) :=
  forRange (iatBatchesBody today file) 0 (length (ach.IATBatches file)).

Definition errNoFile : error := errors_New "no ACH file provided".

(** [fileHasOldBatches(file)], with the instant that [base.Now()] answers
    as an argument. *)
Definition fileHasOldBatches (now : time.Time) (file : option ach.File)
    : exec (option error) :=
  match file with
  | None => Returns (Some errNoFile)
  | Some file =>
      let today := startOfToday now in
      match batchesLoop today file with
      | Returns None => iatBatchesLoop today file
      | stop => stop
      end
  end.

(** ** Collaborators and process state *)

(** The [Repository] interface, as far as the create endpoint uses it: a
    call may change the repository and answers an error or nil. *)
Class Repository (R : Type) := {
  StoreFile : ach.File -> R -> option error * R
}.

(** The [Service] interface, as far as the delete endpoint uses it. *)
Class Service (S : Type) := {
  DeleteFile : string -> S -> option error * S
}.

(** A value in the key/value list handed to [logger.Log]. *)
Inductive logVal :=
| LogString (s : string)
| LogError (e : option error).

(** Everything an endpoint can read or change besides its arguments:
    the two collaborators, the counters [filesCreated] (one count per pair
    of label values, destination first) and [filesDeleted] (no labels), the
    lines logged so far (newest first), the instant [base.Now()] answers,
    and the source of fresh identifiers. *)
Record world (Svc Repo : Type) := {
  service : Svc;
  repository : Repo;
  filesCreated : gmap (string * string) nat;
  filesDeleted : nat;
  logged : list (list logVal);
  clock : time.Time;
  idStream : nat -> string;
  idsTaken : nat
}.
Arguments service {Svc Repo} w.
Arguments repository {Svc Repo} w.
Arguments filesCreated {Svc Repo} w.
Arguments filesDeleted {Svc Repo} w.
Arguments logged {Svc Repo} w.
Arguments clock {Svc Repo} w.
Arguments idStream {Svc Repo} w.
Arguments idsTaken {Svc Repo} w.

(** A Go function body over the process state [W]: the state that has been
    reached is kept when the body panics. *)
Definition prog (W A : Type) : Type := W -> exec A * W.

#[global] Instance prog_ret {W} : MRet (prog W) := fun A a w => (Returns a, w).

#[global] Instance prog_bind {W} : MBind (prog W) := fun A B k m w =>
  match m w with
  | (Returns a, w') => k a w'
  | (Panics p, w') => (Panics p, w')
  end.

Definition lift {W A} (m : exec A) : prog W A := fun w => (m, w).

Definition gets {W A} (f : W -> A) : prog W A := fun w => (Returns (f w), w).

Definition modify {W} (f : W -> W) : prog W unit := fun w => (Returns tt, f w).

Definition when {W} (c : bool) (m : prog W unit) : prog W unit :=
  if c then m else mret tt.

(** [p.f] through a pointer [p]: a panic when [p] is nil. *)
Definition deref {A} (p : option A) : exec A :=
  match p with
  | Some a => Returns a
  | None => Panics NilPointerDereference
  end.

Definition nonEmpty (s : string) : bool := bool_decide (s ≠ "").

Record createFileRequest := {
  File : option ach.File;
  requestId : string
}.

Record createFileResponse := {
  ID : string;
  Err : option error
}.

Record deleteFileRequest := {
  deleteID : string;
  deleteRequestId : string
}.

Record deleteFileResponse := {
  deleteErr : option error
}.

Section Endpoints.
Context {Svc Repo : Type} `{Service Svc} `{Repository Repo}.

Local Abbreviation W := (world Svc Repo).

(** [filesCreated.With("destination", d, "origin", o).Add(n)]. *)
Definition filesCreated_Add (d o : string) (n : nat) : prog W unit :=
  modify (fun w =>
    {| service := service w; repository := repository w;
       filesCreated := <[(d, o) := (default 0%nat (filesCreated w !! (d, o)) + n)%nat]> (filesCreated w);
       filesDeleted := filesDeleted w; logged := logged w; clock := clock w;
       idStream := idStream w; idsTaken := idsTaken w |}).

(** [filesDeleted.Add(n)]. *)
Definition filesDeleted_Add (n : nat) : prog W unit :=
  modify (fun w =>
    {| service := service w; repository := repository w;
       filesCreated := filesCreated w;
       filesDeleted := (filesDeleted w + n)%nat;
       logged := logged w; clock := clock w;
       idStream := idStream w; idsTaken := idsTaken w |}).

(** [logger.Log(keyvals...)]. *)
Definition Log (keyvals : list logVal) : prog W unit :=
  modify (fun w =>
    {| service := service w; repository := repository w;
       filesCreated := filesCreated w; filesDeleted := filesDeleted w;
       logged := keyvals :: logged w; clock := clock w;
       idStream := idStream w; idsTaken := idsTaken w |}).

(** Modelled from the spec: [NextID()] is declared outside the files at
    hand; it is an opaque source of identifiers, here the next element of
    the world's [idStream]. *)
Definition NextID : prog W string := fun w =>
  (Returns (idStream w (idsTaken w)),
   {| service := service w; repository := repository w;
      filesCreated := filesCreated w; filesDeleted := filesDeleted w;
      logged := logged w; clock := clock w;
      idStream := idStream w; idsTaken := S (idsTaken w) |}).

(** [r.StoreFile(file)]. *)
Definition callStoreFile (file : ach.File) : prog W (option error) := fun w =>
  let '(err, r') := StoreFile file (repository w) in
  (Returns err,
   {| service := service w; repository := r';
      filesCreated := filesCreated w; filesDeleted := filesDeleted w;
      logged := logged w; clock := clock w;
      idStream := idStream w; idsTaken := idsTaken w |}).

(** [s.DeleteFile(id)]. *)
Definition callDeleteFile (id : string) : prog W (option error) := fun w =>
  let '(err, s') := DeleteFile id (service w) in
  (Returns err,
   {| service := s'; repository := repository w;
      filesCreated := filesCreated w; filesDeleted := filesDeleted w;
      logged := logged w; clock := clock w;
      idStream := idStream w; idsTaken := idsTaken w |}).

(** The function [createFileEndpoint(s, r, logger)] answers.  [logger] tells
    whether the logger is non-nil.  The request holds a pointer to the
    file: the identifier assigned through it is the one every later
    statement reads. *)
Definition createFileEndpoint (logger : bool) (req : createFileRequest)
    : prog W (createFileResponse * option error) :=
  (* record a metric for files created *)
  match File req with
  | Some f =>
      when (nonEmpty (ach.ImmediateDestination (ach.Header f))
            && nonEmpty (ach.ImmediateOrigin (ach.Header f)))
        (filesCreated_Add (ach.ImmediateDestination (ach.Header f))
                          (ach.ImmediateOrigin (ach.Header f)) 1)
  | None => mret tt
  end ;;
  (* Create a random file ID if none was provided *)
  f ← lift (deref (File req));
  f ← (if bool_decide (ach.ID f = "")
       then id ← NextID; mret (ach.setID f id)
       else mret f);
  (* Reject files with a batch that was supposed to be posted in the past. *)
  now ← gets clock;
  old ← lift (fileHasOldBatches now (Some f));
  match old with
  | Some err => mret ({| ID := ach.ID f; Err := Some err |}, Some err)
  | None =>
      err ← callStoreFile f;
      when (nonEmpty (requestId req) && logger)
        (Log [LogString "files"; LogString "createFile";
              LogString "requestId"; LogString (requestId req);
              LogString "error"; LogError err]) ;;
      mret ({| ID := ach.ID f; Err := err |}, None)
  end.

(** The function [deleteFileEndpoint(s, logger)] answers. *)
Definition deleteFileEndpoint (logger : bool) (req : deleteFileRequest)
    : prog W (deleteFileResponse * option error) :=
  filesDeleted_Add 1 ;;
  err ← callDeleteFile (deleteID req);
  when (nonEmpty (deleteRequestId req) && logger)
    (Log [LogString "files"; LogString "deleteFile";
          LogString "requestId"; LogString (deleteRequestId req);
          LogString "error"; LogError err]) ;;
  mret ({| deleteErr := err |}, None).

End Endpoints.

(** ** An in-memory store *)

(** Modelled from the spec: the error of the store for an identifier it
    does not hold ("fails with NotFound if absent"); the store is declared
    outside the files at hand. *)
Definition errNotFound : error := errors_New "NotFound".

(** Modelled from the spec: the store is "a mapping from File ID to File";
    [Store] puts the file under its ID. *)
#[global] Instance memRepository : Repository (gmap string ach.File) := {|
  StoreFile f m := (None, <[ach.ID f := f]> m)
|}.

(** Modelled from the spec: [Delete] "removes the file from the store;
    fails with NotFound if absent". *)
#[global] Instance memService : Service (gmap string ach.File) := {|
  DeleteFile id m :=
    match m !! id with
    | Some _ => (None, delete id m)
    | None => (Some errNotFound, m)
    end
|}.

(** ** The routing-number check digit *)

Definition isDigit (c : Ascii.ascii) : bool :=
  let n := Ascii.N_of_ascii c in ((48 <=? n) && (n <=? 57))%N.

Definition digitValue (c : Ascii.ascii) : Z := Z.of_N (Ascii.N_of_ascii c) - 48.

Definition digitChar (d : Z) : Ascii.ascii := Ascii.ascii_of_N (Z.to_N (d + 48)).

Definition chars (s : string) : list Ascii.ascii := String.list_ascii_of_string s.

(** Positions 1 to 8 carry the weights 3, 7, 1, 3, 7, 1, 3, 7. *)
Definition weights : list Z := [3; 7; 1; 3; 7; 1; 3; 7].

Definition weightedSum (ds : list Z) : Z :=
  foldr Z.add 0 (zip_with Z.mul weights ds).

Definition isDigits (n : nat) (s : string) : bool :=
  bool_decide (length (chars s) = n) && forallb isDigit (chars s).

(** Modelled from the spec: [CalculateCheckDigit] is declared outside the
    files at hand (only its test is there).  It "returns the single digit
    0–9 that makes the 9-digit routing number valid, or -1 if the input is
    not exactly 8 ASCII digits"; "the check digit is
    (10 - (sum mod 10)) mod 10" of the weighted sum. *)
Definition CalculateCheckDigit (routingNumber : string) : Z :=
  if isDigits 8 routingNumber
  then (10 - weightedSum (digitValue <$> chars routingNumber) `mod` 10) `mod` 10
  else -1.

Inductive routingError := InvalidRoutingNumber.

(** Modelled from the spec: [CheckRoutingNumber] is declared outside the
    files at hand.  It "fails with InvalidRoutingNumber when the input is
    not exactly 9 digits, or when the 9th digit does not equal
    CalculateCheckDigit of the first 8". *)
Definition CheckRoutingNumber (routingNumber : string) : option routingError :=
  if isDigits 9 routingNumber
  then
    match chars routingNumber !! 8%nat with
    | Some c =>
        if digitValue c =? CalculateCheckDigit (String.substring 0 8 routingNumber)
        then None
        else Some InvalidRoutingNumber
    | None => Some InvalidRoutingNumber
    end
  else Some InvalidRoutingNumber.

(** [fmt.Sprintf("%s%d", rtn, check)] for a one-digit [check]. *)
Definition appendDigit (rtn : string) (check : Z) : string :=
  rtn +:+ String (digitChar check) "".

(** ** Notions used to state the properties *)

(** A loop over the elements of a slice, with the same convention as
    [forRange] for what the check answers. *)
Fixpoint scan {A B} (chk : A -> exec (option B)) (l : list A) : exec (option B) :=
  match l with
  | [] => Returns None
  | a :: l' =>
      match chk a with
      | Returns None => scan chk l'
      | stop => stop
      end
  end.

(** A batch offends when it has a header whose [EffectiveEntryDate] is
    before [today]. *)
Definition stale (today : time.Time) (b : ach.Batcher.t) : bool :=
  match ach.Batcher.GetHeader b with
  | Some header => time.Before (ach.EffectiveEntryDate header) today
  | None => false
  end.

Definition staleIAT (today : time.Time) (b : ach.IATBatch.t) : bool :=
  match ach.IATBatch.GetHeader b with
  | Some header => time.Before (ach.IATBatch.EffectiveEntryDate header) today
  | None => false
  end.

(** The error that names file [file], batch [b] and the date in [header]. *)
Definition staleError (format : string) (file : ach.File) (b : ach.Batcher.t)
    (header : ach.BatchHeader) : error :=
  fmt_Errorf format [ArgString (ach.ID file);
                     ArgString (ach.Batcher.ID b);
                     ArgTime (ach.EffectiveEntryDate header)].

(** The file that the create endpoint checks and stores: the submitted one,
    with the next fresh identifier when it came without one. *)
Definition identified {Svc Repo} (w : world Svc Repo) (f : ach.File) : ach.File :=
  if bool_decide (ach.ID f = "") then ach.setID f (idStream w (idsTaken w)) else f.

(** Whether a create request is counted in [filesCreated]. *)
Definition counted (req : createFileRequest) : bool :=
  match File req with
  | Some f => nonEmpty (ach.ImmediateDestination (ach.Header f))
              && nonEmpty (ach.ImmediateOrigin (ach.Header f))
  | None => false
  end.

(** ** Sample values *)

(** 2018-10-31 12:00:00 UTC. *)
Definition noon : time.Time :=
  {| time.sec := 1540987200; time.nsec := 0; time.loc := time.UTC |}.

Definition daysAfter (n : Z) (t : time.Time) : time.Time :=
  {| time.sec := time.sec t + n * time.secondsPerDay;
     time.nsec := time.nsec t; time.loc := time.loc t |}.

Definition batchOn (id : string) (t : time.Time) : ach.Batcher.t :=
  {| ach.Batcher.GetHeader := Some {| ach.EffectiveEntryDate := t |};
     ach.Batcher.ID := id |}.

Definition iatBatchOn (id : string) (t : time.Time) : ach.IATBatch.t :=
  {| ach.IATBatch.GetHeader := Some {| ach.IATBatch.EffectiveEntryDate := t |};
     ach.IATBatch.ID := id |}.

Definition sampleHeader : ach.FileHeader :=
  {| ach.ImmediateDestination := "231380104"; ach.ImmediateOrigin := "121042882" |}.

Definition sampleFile (id : string) (bs : list ach.Batcher.t)
    (iats : list ach.IATBatch.t) : ach.File :=
  {| ach.ID := id; ach.Header := sampleHeader; ach.Batches := bs;
     ach.IATBatches := iats |}.

(** A sample identifier for each number: the prefix and that many strokes. *)
Fixpoint strokes (n : nat) : string :=
  match n with
  | O => ""
  | S n' => "|" +:+ strokes n'
  end.

Definition sampleWorld : world (gmap string ach.File) (gmap string ach.File) :=
  {| service := ∅; repository := ∅; filesCreated := ∅; filesDeleted := 0;
     logged := []; clock := noon;
     idStream := fun n => "id-" +:+ strokes (S n); idsTaken := 0 |}.

(** ** The remaining endpoints of [files.go] *)

(** The methods of the [Service] interface that the get, contents and
    validate endpoints call.  A file pointer and an [io.Reader] may be nil;
    what a reader holds is kept as a string of bytes. *)
Class ServiceQueries (S : Type) := {
  GetFiles : S -> list (option ach.File) * S;
  GetFile : string -> S -> (option ach.File * option error) * S;
  GetFileContents : string -> S -> (option string * option error) * S;
  ValidateFile : string -> S -> option error * S
}.

Record getFilesRequest := {
  getFilesRequestId : string
}.





Record getFileContentsRequest := {
  getFileContentsID : string;
  getFileContentsRequestId : string
}.

Record getFileContentsResponse := {
  getFileContentsErr : option error
}.

(** What the contents endpoint hands back as its [interface{}]: the reader
    of the service, or a response that carries the error. *)
Inductive getFileContentsResult :=
| ContentsReader (r : option string)
| ContentsResponse (resp : getFileContentsResponse).



Section QueryEndpoints.
Context {Svc Repo : Type} `{ServiceQueries Svc}.

Local Abbreviation W := (world Svc Repo).

(** A call of a method of the service [s]. *)
Definition callService {A} (method : Svc -> A * Svc) : prog W A := fun w =>
  let '(a, s') := method (service w) in
  (Returns a,
   {| service := s'; repository := repository w;
      filesCreated := filesCreated w; filesDeleted := filesDeleted w;
      logged := logged w; clock := clock w;
      idStream := idStream w; idsTaken := idsTaken w |}).



(** The function [getFileContentsEndpoint(s, logger)] answers. *)
Definition getFileContentsEndpoint (logger : bool) (req : getFileContentsRequest)
    : prog W (getFileContentsResult * option error) :=
  '(r, err) ← callService (GetFileContents (getFileContentsID req));
  when (nonEmpty (getFileContentsRequestId req) && logger)
    (Log [LogString "files"; LogString "getFileContents";
          LogString "requestId"; LogString (getFileContentsRequestId req);
          LogString "error"; LogError err]) ;;
  match err with
  | Some e => mret (ContentsResponse {| getFileContentsErr := Some e |}, None)
  | None => mret (ContentsReader r, None)
  end.


End QueryEndpoints.

(** ** Decoding requests *)

(** The parts of an [*http.Request] that the decoders read: its header (one
    value per key), the route variables that [mux.Vars] answers, and what
    [ioutil.ReadAll] gets out of its body, bytes and error. *)
Record httpRequest := {
  httpHeader : gmap string string;
  httpVars : gmap string string;
  httpBody : string * option error
}.

(** [request.Header.Get(key)]: the empty string for a key that is not
    there. *)
Definition Header_Get (r : httpRequest) (key : string) : string :=
  default "" (httpHeader r !! key).

(** [strings.Contains(s, substr)]. *)
Fixpoint strings_Contains (s substr : string) : bool :=
  String.prefix substr s
  || match s with
     | EmptyString => false
     | String _ s' => strings_Contains s' substr
     end.

(** What a decoder returns: the request, or an error with a nil request. *)
Inductive decoded (A : Type) :=
| Decoded (a : A)
| DecodeError (e : error).
Arguments Decoded {A} a.
Arguments DecodeError {A} e.

Section Decoders.
(** Declared in other files of the package and in the libraries it imports:
    the routing error, [moovhttp.GetRequestId], [ach.NewFile],
    [ach.FileFromJSON] and [ach.NewReader(r).Read()]. *)
Variable ErrBadRouting : error.
Variable GetRequestId : httpRequest -> string.
Variable NewFile : ach.File.
Variable FileFromJSON : string -> option ach.File * option error.
Variable ReaderRead : string -> ach.File * option error.

Definition decodeCreateFileRequest (request : httpRequest) : decoded createFileRequest :=
  let req := {| File := None; requestId := "" |} in
  let req := {| File := File req; requestId := GetRequestId request |} in
  (* Sets default values *)
  let req := {| File := Some NewFile; requestId := requestId req |} in
  let '(bs, err) := httpBody request in
  match err with
  | Some e => DecodeError e
  | None =>
      let h := Header_Get request "Content-Type" in
      if strings_Contains h "application/json"
      then
        (* Read body as ACH file in JSON *)
        let '(f, err) := FileFromJSON bs in
        match err with
        | Some e => DecodeError e
        | None => Decoded {| File := f; requestId := requestId req |}
        end
      else
        (* Attempt parsing body as an ACH File *)
        let '(f, err) := ReaderRead bs in
        match err with
        | Some e => DecodeError e
        | None => Decoded {| File := Some f; requestId := requestId req |}
        end
  end.

Definition decodeGetFilesRequest (r : httpRequest) : decoded getFilesRequest :=
  Decoded {| getFilesRequestId := GetRequestId r |}.


Definition decodeDeleteFileRequest (r : httpRequest) : decoded deleteFileRequest :=
  match httpVars r !! "id" with
  | None => DecodeError ErrBadRouting
  | Some id => Decoded {| deleteID := id; deleteRequestId := GetRequestId r |}
  end.



End Decoders.

(** ** Requests served one after another *)

(** The state after an endpoint has served the requests of a list in
    order.  The state a call reaches is kept also when the call panics. *)
Fixpoint serveAll {W Req Resp} (endpoint : Req -> prog W Resp) (reqs : list Req)
    (w : W) : W :=
  match reqs with
  | [] => w
  | req :: reqs' => serveAll endpoint reqs' (snd (endpoint req w))
  end.

(** The labels under which a create request is counted, if it is. *)
Definition countedLabel (req : createFileRequest) : option (string * string) :=
  match File req with
  | Some f =>
      if counted req
      then Some (ach.ImmediateDestination (ach.Header f),
                 ach.ImmediateOrigin (ach.Header f))
      else None
  | None => None
  end.

(** A stand-in for the queries of the service, over the in-memory store:
    it hands out a file's ID as its contents and finds every file that it
    holds valid. *)
#[global] Instance memServiceQueries : ServiceQueries (gmap string ach.File) := {|
  GetFiles m := (Some <$> (map_to_list m).*2, m);
  GetFile id m :=
    match m !! id with
    | Some f => ((Some f, None), m)
    | None => ((None, Some errNotFound), m)
    end;
  GetFileContents id m :=
    match m !! id with
    | Some f => ((Some (ach.ID f), None), m)
    | None => ((None, Some errNotFound), m)
    end;
  ValidateFile id m :=
    match m !! id with
    | Some f => (None, m)
    | None => (Some errNotFound, m)
    end
|}.

(** * Properties *)

(** ** The start of the day *)

Lemma dayOfEra_year_range doe :
  0 <= doe < 146097 ->
  let yoe := (doe - doe `div` 1460 + doe `div` 36524 - doe `div` 146096) `div` 365 in
  0 <= yoe <= 399 /\ 0 <= doe - (365 * yoe + yoe `div` 4 - yoe `div` 100) <= 365.
Proof.
  intros Hdoe yoe. subst yoe.
  Z.div_mod_to_equations; lia.
Qed.

(** The date of a day number has a month from 1 to 12 and is the date of
    that day number only. *)
Lemma civilFromDays_inv z y m d :
  time.civilFromDays z = (y, m, d) ->
  1 <= m <= 12 /\ time.daysFromCivil y m d = z.
Proof.
  unfold time.civilFromDays, time.daysFromCivil. cbv zeta.
  set (z' := z + 719468). set (era := z' `div` 146097).
  set (doe := z' - era * 146097).
  assert (Hdoe : 0 <= doe < 146097)
    by (subst doe era; Z.div_mod_to_equations; lia).
  destruct (dayOfEra_year_range doe Hdoe) as [Hyoe Hdoy]. cbv zeta in Hyoe, Hdoy.
  set (yoe := (doe - doe `div` 1460 + doe `div` 36524 - doe `div` 146096) `div` 365) in *.
  set (doy := doe - (365 * yoe + yoe `div` 4 - yoe `div` 100)) in *.
  set (mp := (5 * doy + 2) `div` 153).
  assert (Hmp : 0 <= mp <= 11) by (subst mp; Z.div_mod_to_equations; lia).
  set (m' := if mp <? 10 then mp + 3 else mp - 9).
  assert (Hm : 1 <= m' <= 12 /\ (if 2 <? m' then m' - 3 else m' + 9) = mp).
  { subst m'. destruct (Z.ltb_spec mp 10).
    - destruct (Z.ltb_spec 2 (mp + 3)); lia.
    - destruct (Z.ltb_spec 2 (mp - 9)); lia. }
  destruct Hm as [Hm Hmp'].
  intros [= <- <- <-]. split; [exact Hm|].
  rewrite Hmp'.
  assert (Hy : (if m' <=? 2
                then (if m' <=? 2 then yoe + era * 400 + 1 else yoe + era * 400) - 1
                else (if m' <=? 2 then yoe + era * 400 + 1 else yoe + era * 400))
               = yoe + era * 400).
  { destruct (Z.leb_spec m' 2); lia. }
  rewrite Hy.
  assert (He : (yoe + era * 400) `div` 400 = era) by (Z.div_mod_to_equations; lia).
  rewrite He.
  replace (yoe + era * 400 - era * 400) with yoe by lia.
  subst doy doe z'. lia.
Qed.

(** [today] is [now] moved back to the last midnight of [now]'s location. *)
Lemma startOfToday_midnight now :
  startOfToday now =
  {| time.sec := time.sec now
                 - (time.sec now + time.offset (time.loc now)) `mod` 86400;
     time.nsec := 0;
     time.loc := time.loc now |}.
Proof.
  unfold startOfToday, time.Date.
  destruct (time.civilFromDays _) as [[y m] d] eqn:E.
  apply civilFromDays_inv in E as [Hm E].
  unfold time.Date_of, time.Location_of, time.secondsPerDay in *.
  replace ((m - 1) `div` 12) with 0 by (Z.div_mod_to_equations; lia).
  replace ((m - 1) `mod` 12 + 1) with m by (Z.div_mod_to_equations; lia).
  replace (y + 0) with y by lia. rewrite E. f_equal.
  Z.div_mod_to_equations; lia.
Qed.

(** [today] is at or before [now], less than a day back, and on a day
    boundary of the location. *)
Lemma startOfToday_bounds now :
  let today := startOfToday now in
  time.sec today <= time.sec now < time.sec today + 86400
  /\ (time.sec today + time.offset (time.loc now)) `mod` 86400 = 0
  /\ time.nsec today = 0.
Proof.
  cbv zeta. rewrite startOfToday_midnight. cbn [time.sec time.nsec].
  Z.div_mod_to_equations; lia.
Qed.

(** ** Loops *)

Section Loops.
Context {A B : Type} (chk : A -> exec (option B)).

(** A loop that indexes [l] at every index from [i] and stays in range is a
    scan of that part of [l]. *)
Lemma forRange_index_in (l : list A) (n i : nat) :
  (i + n <= length l)%nat ->
  forRange (fun j => index l j ≫= chk) i n = scan chk (take n (drop i l)).
Proof.
  revert i. induction n as [|n IH]; intros i Hin; [done|].
  destruct (lookup_lt_is_Some_2 l i ltac:(lia)) as [a Ha].
  rewrite (drop_S _ _ _ Ha). cbn [forRange take scan].
  unfold index at 1. rewrite Ha. cbn [mbind exec_bind].
  rewrite IH by lia. done.
Qed.

(** A loop that runs past the end of [l] scans what is left of [l] and
    then panics at index [length l], unless the scan ends it before. *)
Lemma forRange_index_out (l : list A) (n i : nat) :
  (i <= length l < i + n)%nat ->
  forRange (fun j => index l j ≫= chk) i n =
  match scan chk (drop i l) with
  | Returns None => Panics (IndexOutOfRange (length l) (length l))
  | stop => stop
  end.
Proof.
  revert i. induction n as [|n IH]; intros i Hin; [lia|].
  cbn [forRange]. unfold index at 1.
  destruct (l !! i) as [a|] eqn:Ha.
  - rewrite (drop_S _ _ _ Ha). cbn [mbind exec_bind scan].
    apply lookup_lt_Some in Ha.
    destruct (chk a) as [[b|]|p]; [done| |done].
    apply IH. lia.
  - apply lookup_ge_None in Ha. assert (i = length l) as -> by lia.
    rewrite drop_all. done.
Qed.

Lemma scan_app (l1 l2 : list A) :
  scan chk (l1 ++ l2) =
  match scan chk l1 with
  | Returns None => scan chk l2
  | stop => stop
  end.
Proof.
  induction l1 as [|a l1 IH]; [done|].
  cbn [app scan]. destruct (chk a) as [[b|]|p]; done.
Qed.

End Loops.

(** A loop that returns a value returns what its body returned at one of
    the indices it went through. *)
Lemma forRange_returns {A} (body : nat -> exec (option A)) (n i : nat) (r : A) :
  forRange body i n = Returns (Some r) ->
  exists j, (i <= j < i + n)%nat /\ body j = Returns (Some r).
Proof.
  revert i. induction n as [|n IH]; intros i Hr; [done|].
  cbn [forRange] in Hr. destruct (body i) as [[b|]|p] eqn:Hb.
  - exists i. split; [lia|congruence].
  - destruct (IH _ Hr) as (j & Hj & Hbj). exists j. split; [lia|done].
  - done.
Qed.

(** ** The temporal rule *)

Section Temporal.
Context (format : string) (today : time.Time) (file : ach.File).

Lemma checkHeader_fresh b :
  stale today b = false -> checkHeader format today file b = Returns None.
Proof.
  unfold stale, checkHeader. destruct (ach.Batcher.GetHeader b); [|done].
  by intros ->.
Qed.

Lemma checkHeader_stale b header :
  ach.Batcher.GetHeader b = Some header ->
  time.Before (ach.EffectiveEntryDate header) today = true ->
  checkHeader format today file b = Returns (Some (staleError format file b header)).
Proof. unfold checkHeader. by intros -> ->. Qed.

(** The check of one header answers nothing but "go on" or the error for a
    header that is before [today]. *)
Lemma checkHeader_cases b :
  (stale today b = false /\ checkHeader format today file b = Returns None)
  \/ (exists header,
        ach.Batcher.GetHeader b = Some header
        /\ time.Before (ach.EffectiveEntryDate header) today = true
        /\ checkHeader format today file b
           = Returns (Some (staleError format file b header))).
Proof.
  unfold stale, checkHeader.
  destruct (ach.Batcher.GetHeader b) as [header|]; [|by left].
  destruct (time.Before _ _) eqn:E; [right|by left].
  by exists header.
Qed.

Lemma scan_fresh (l : list ach.Batcher.t) :
  Forall (fun b => stale today b = false) l ->
  scan (checkHeader format today file) l = Returns None.
Proof.
  induction 1 as [|b l Hb _ IH]; [done|].
  cbn [scan]. by rewrite checkHeader_fresh.
Qed.

Lemma scan_first_stale (pre post : list ach.Batcher.t) b header :
  Forall (fun b => stale today b = false) pre ->
  ach.Batcher.GetHeader b = Some header ->
  time.Before (ach.EffectiveEntryDate header) today = true ->
  scan (checkHeader format today file) (pre ++ b :: post)
  = Returns (Some (staleError format file b header)).
Proof.
  intros Hpre Hh Hb. rewrite scan_app, (scan_fresh _ Hpre).
  cbn [scan]. by rewrite (checkHeader_stale _ _ Hh Hb).
Qed.

(** A scan either finds no offender and runs to the end, or stops at the
    first one. *)
Lemma scan_cases (l : list ach.Batcher.t) :
  (Forall (fun b => stale today b = false) l
   /\ scan (checkHeader format today file) l = Returns None)
  \/ (exists pre b header post,
        l = pre ++ b :: post
        /\ Forall (fun b => stale today b = false) pre
        /\ ach.Batcher.GetHeader b = Some header
        /\ time.Before (ach.EffectiveEntryDate header) today = true
        /\ scan (checkHeader format today file) l
           = Returns (Some (staleError format file b header))).
Proof.
  induction l as [|b l IH]; [by left|].
  destruct (checkHeader_cases b) as [[Hb Hc]|(header & Hh & Hb & Hc)].
  - destruct IH as [[Hl Hs]|(pre & b' & header & post & -> & Hpre & Hh & Hb' & Hs)].
    + left. split; [by constructor|]. cbn [scan]. by rewrite Hc.
    + right. exists (b :: pre), b', header, post.
      split_and!; [done|by constructor|done|done|].
      cbn [app scan]. by rewrite Hc.
  - right. exists [], b, header, l. split_and!; [done|done|done|done|].
    cbn [scan]. by rewrite Hc.
Qed.

End Temporal.

Lemma batchesLoop_scan today file :
  batchesLoop today file
  = scan (checkHeader batchFormat today file) (ach.Batches file).
Proof.
  unfold batchesLoop, batchesBody.
  rewrite (forRange_index_in (checkHeader batchFormat today file)) by (cbn; lia).
  by rewrite drop_0, firstn_all.
Qed.

Lemma iatBatchesLoop_in_range today file :
  (length (ach.IATBatches file) <= length (ach.Batches file))%nat ->
  iatBatchesLoop today file
  = scan (checkHeader iatBatchFormat today file)
         (take (length (ach.IATBatches file)) (ach.Batches file)).
Proof.
  intros Hlen. unfold iatBatchesLoop, iatBatchesBody.
  rewrite (forRange_index_in (checkHeader iatBatchFormat today file)) by (cbn; lia).
  by rewrite drop_0.
Qed.

Lemma iatBatchesLoop_out_of_range today file :
  (length (ach.Batches file) < length (ach.IATBatches file))%nat ->
  iatBatchesLoop today file
  = match scan (checkHeader iatBatchFormat today file) (ach.Batches file) with
    | Returns None =>
        Panics (IndexOutOfRange (length (ach.Batches file)) (length (ach.Batches file)))
    | stop => stop
    end.
Proof.
  intros Hlen. unfold iatBatchesLoop, iatBatchesBody.
  rewrite (forRange_index_out (checkHeader iatBatchFormat today file)) by (cbn; lia).
  by rewrite drop_0.
Qed.

(** Once the first loop has run to its end, the second one finds nothing to
    report: it runs to its end too, or runs out of [Batches]. *)
Lemma iatBatchesLoop_after_batchesLoop today file :
  batchesLoop today file = Returns None ->
  iatBatchesLoop today file
  = if decide (length (ach.IATBatches file) <= length (ach.Batches file))%nat
    then Returns None
    else Panics (IndexOutOfRange (length (ach.Batches file)) (length (ach.Batches file))).
Proof.
  rewrite batchesLoop_scan. intros Hscan.
  assert (Hfresh : Forall (fun b => stale today b = false) (ach.Batches file)).
  { destruct (scan_cases batchFormat today file (ach.Batches file))
      as [[Hf _]|(? & ? & ? & ? & _ & _ & _ & _ & Hs)]; [done|congruence]. }
  case_decide as Hlen.
  - rewrite iatBatchesLoop_in_range by done.
    apply scan_fresh, Forall_take, Hfresh.
  - rewrite iatBatchesLoop_out_of_range by lia.
    by rewrite (scan_fresh _ _ _ _ Hfresh).
Qed.

(** The three ways [fileHasOldBatches] ends on a file that is there: with
    the error for the first offender of [Batches], with nil, or with a
    panic at the end of [Batches]. *)
Lemma fileHasOldBatches_cases now file :
  let today := startOfToday now in
  (exists pre b header post,
      ach.Batches file = pre ++ b :: post
      /\ Forall (fun b => stale today b = false) pre
      /\ ach.Batcher.GetHeader b = Some header
      /\ time.Before (ach.EffectiveEntryDate header) today = true
      /\ fileHasOldBatches now (Some file)
         = Returns (Some (staleError batchFormat file b header)))
  \/ (Forall (fun b => stale today b = false) (ach.Batches file)
      /\ (length (ach.IATBatches file) <= length (ach.Batches file))%nat
      /\ fileHasOldBatches now (Some file) = Returns None)
  \/ (Forall (fun b => stale today b = false) (ach.Batches file)
      /\ (length (ach.Batches file) < length (ach.IATBatches file))%nat
      /\ fileHasOldBatches now (Some file)
         = Panics (IndexOutOfRange (length (ach.Batches file))
                                   (length (ach.Batches file)))).
Proof.
  intros today. unfold fileHasOldBatches. fold today.
  destruct (scan_cases batchFormat today file (ach.Batches file))
    as [[Hf Hs]|(pre & b & header & post & Hl & Hpre & Hh & Hb & Hs)].
  - right. rewrite <- batchesLoop_scan in Hs. rewrite Hs.
    rewrite (iatBatchesLoop_after_batchesLoop _ _ Hs).
    case_decide; [left|right]; split_and!; (done || lia).
  - left. exists pre, b, header, post.
    rewrite batchesLoop_scan, Hs. done.
Qed.

(** A batch of [Batches] that is before [today], with none before it that
    is, makes the check fail with the error naming the file, that batch and
    its date, whatever follows it in [Batches] and whatever [IATBatches]
    holds. *)
Lemma fileHasOldBatches_first_stale now file pre b header post :
  ach.Batches file = pre ++ b :: post ->
  Forall (fun b => stale (startOfToday now) b = false) pre ->
  ach.Batcher.GetHeader b = Some header ->
  time.Before (ach.EffectiveEntryDate header) (startOfToday now) = true ->
  fileHasOldBatches now (Some file)
  = Returns (Some (staleError batchFormat file b header)).
Proof.
  intros Hl Hpre Hh Hb. unfold fileHasOldBatches.
  by rewrite batchesLoop_scan, Hl, (scan_first_stale _ _ _ _ _ _ _ Hpre Hh Hb).
Qed.

(** A file whose [Batches] are all on [today] or later, or without header,
    passes when [IATBatches] is not the longer slice. *)
Lemma fileHasOldBatches_fresh now file :
  Forall (fun b => stale (startOfToday now) b = false) (ach.Batches file) ->
  (length (ach.IATBatches file) <= length (ach.Batches file))%nat ->
  fileHasOldBatches now (Some file) = Returns None.
Proof.
  intros Hf Hlen.
  destruct (fileHasOldBatches_cases now file)
    as [(pre & b & header & post & Hl & _ & Hh & Hb & _)|[(_ & _ & Hr)|(_ & Hlt & _)]];
    [|done|lia].
  rewrite Hl in Hf. apply Forall_app in Hf as [_ Hf].
  apply Forall_cons in Hf as [Hf _]. unfold stale in Hf.
  rewrite Hh in Hf. congruence.
Qed.

(** A batch without header is passed over: with no international batches,
    the check answers what it answers without that batch. *)
Lemma fileHasOldBatches_headerless now file pre post id :
  ach.IATBatches file = [] ->
  ach.Batches file
  = pre ++ {| ach.Batcher.GetHeader := None; ach.Batcher.ID := id |} :: post ->
  fileHasOldBatches now (Some file)
  = fileHasOldBatches now (Some (ach.setBatches file (pre ++ post))).
Proof.
  intros Hiat Hl. unfold fileHasOldBatches.
  rewrite !batchesLoop_scan. unfold iatBatchesLoop.
  cbn [ach.setBatches ach.Batches ach.IATBatches]. rewrite Hiat, Hl.
  cbn [length forRange]. rewrite !scan_app. cbn [scan].
  unfold checkHeader at 2. cbn [ach.Batcher.GetHeader].
  done.
Qed.

(** C9: called with a nil file, [fileHasOldBatches] returns the error
    "no ACH file provided"; it neither panics nor returns nil. *)
Theorem fileHasOldBatches_nil_file now :
  fileHasOldBatches now None
  = Returns (Some (errors_New "no ACH file provided")).
Proof. reflexivity. Qed.

(** C1: at every index [i] in the range of [IATBatches], the second loop
    fetches the batch whose header it checks from [Batches] at [i]: it
    panics when [Batches] has no such index, passes over [Batches[i]] when
    that has no header or one that is not before today, and otherwise
    returns the error naming [Batches[i]]'s ID.  Every error the loop
    returns names such a [Batches[i]], and the result of the whole check
    depends on [IATBatches] through its length only. *)
Theorem iatBatchesLoop_reads_Batches now today file :
  (forall i, (i < length (ach.IATBatches file))%nat ->
     iatBatchesBody today file i
     = match ach.Batches file !! i with
       | None => Panics (IndexOutOfRange i (length (ach.Batches file)))
       | Some b =>
           match ach.Batcher.GetHeader b with
           | None => Returns None
           | Some header =>
               if time.Before (ach.EffectiveEntryDate header) today
               then Returns (Some (staleError iatBatchFormat file b header))
               else Returns None
           end
       end)
  /\ (forall e, iatBatchesLoop today file = Returns (Some e) ->
        exists i b header,
          (i < length (ach.IATBatches file))%nat
          /\ ach.Batches file !! i = Some b
          /\ ach.Batcher.GetHeader b = Some header
          /\ time.Before (ach.EffectiveEntryDate header) today = true
          /\ e = staleError iatBatchFormat file b header)
  /\ (forall iats, length iats = length (ach.IATBatches file) ->
        fileHasOldBatches now (Some (ach.setIATBatches file iats))
        = fileHasOldBatches now (Some file)).
Proof.
  split_and!.
  - intros i _. unfold iatBatchesBody, index.
    destruct (ach.Batches file !! i) as [b|]; done.
  - intros e He. unfold iatBatchesLoop in He.
    apply forRange_returns in He as (i & Hi & Hbody).
    unfold iatBatchesBody, index in Hbody.
    destruct (ach.Batches file !! i) as [b|] eqn:Hb; [|done].
    cbn [mbind exec_bind] in Hbody.
    destruct (checkHeader_cases iatBatchFormat today file b)
      as [[_ Hc]|(header & Hh & Hbefore & Hc)]; [congruence|].
    exists i, b, header. split_and!; [lia|done|done|done|congruence].
  - intros iats Hlen. unfold fileHasOldBatches, iatBatchesLoop.
    cbn [ach.setIATBatches ach.IATBatches]. rewrite Hlen. done.
Qed.

(** The second loop, run on a file whose only batch is a day old and whose
    only international batch is not: the error names the batch. *)
Lemma iatBatchesLoop_reads_Batches_witness :
  exists i b header,
    (i < 1)%nat
    /\ [batchOn "B0" (daysAfter (-1) noon)] !! i = Some b
    /\ ach.Batcher.GetHeader b = Some header
    /\ time.Before (ach.EffectiveEntryDate header) (startOfToday noon) = true
    /\ fmt_Errorf iatBatchFormat
         [ArgString "f1"; ArgString "B0"; ArgTime (daysAfter (-1) noon)]
       = staleError iatBatchFormat
           (sampleFile "f1" [batchOn "B0" (daysAfter (-1) noon)]
                       [iatBatchOn "I0" noon]) b header.
Proof.
  apply (proj1 (proj2 (iatBatchesLoop_reads_Batches noon (startOfToday noon)
           (sampleFile "f1" [batchOn "B0" (daysAfter (-1) noon)]
                       [iatBatchOn "I0" noon])))).
  vm_compute. reflexivity.
Defined.

(** C2: on a file whose [IATBatches] is longer than its [Batches] and in
    which no batch of [Batches] is before today, [fileHasOldBatches]
    panics, indexing [Batches] at its length, instead of returning. *)
Theorem fileHasOldBatches_longer_IATBatches_panics now file :
  (length (ach.Batches file) < length (ach.IATBatches file))%nat ->
  Forall (fun b => stale (startOfToday now) b = false) (ach.Batches file) ->
  fileHasOldBatches now (Some file)
  = Panics (IndexOutOfRange (length (ach.Batches file))
                            (length (ach.Batches file))).
Proof.
  intros Hlen Hfresh. unfold fileHasOldBatches.
  rewrite batchesLoop_scan, (scan_fresh _ _ _ _ Hfresh).
  rewrite iatBatchesLoop_out_of_range by done.
  by rewrite (scan_fresh _ _ _ _ Hfresh).
Qed.

(** A file with one batch and two international batches, all dated today. *)
Lemma fileHasOldBatches_longer_IATBatches_panics_witness :
  fileHasOldBatches noon
    (Some (sampleFile "f1" [batchOn "B0" noon]
                      [iatBatchOn "I0" noon; iatBatchOn "I1" noon]))
  = Panics (IndexOutOfRange 1 1).
Proof.
  apply (fileHasOldBatches_longer_IATBatches_panics noon
           (sampleFile "f1" [batchOn "B0" noon]
                       [iatBatchOn "I0" noon; iatBatchOn "I1" noon])).
  - cbn. lia.
  - repeat constructor.
Defined.

(** C3: a file that is there, with no batch and one international batch
    dated today, so that none of its batches is before today, does not pass
    the check: the check panics. *)
Theorem fileHasOldBatches_fresh_file_panics :
  let file := sampleFile "f1" [] [iatBatchOn "I0" noon] in
  Forall (fun b => stale (startOfToday noon) b = false) (ach.Batches file)
  /\ Forall (fun b => staleIAT (startOfToday noon) b = false) (ach.IATBatches file)
  /\ fileHasOldBatches noon (Some file) = Panics (IndexOutOfRange 0 0).
Proof.
  cbv zeta. split_and!; [constructor|by repeat constructor|reflexivity].
Qed.

(** C6: a file whose only batch is dated today and whose only international
    batch is a day old has a first offender in the order [Batches], then
    [IATBatches]; the check reports nothing. *)
Theorem fileHasOldBatches_stale_IATBatch_unreported :
  let file := sampleFile "f1" [batchOn "B0" noon]
                         [iatBatchOn "I0" (daysAfter (-1) noon)] in
  Forall (fun b => stale (startOfToday noon) b = false) (ach.Batches file)
  /\ ach.IATBatches file !! 0%nat = Some (iatBatchOn "I0" (daysAfter (-1) noon))
  /\ staleIAT (startOfToday noon) (iatBatchOn "I0" (daysAfter (-1) noon)) = true
  /\ fileHasOldBatches noon (Some file) = Returns None.
Proof.
  cbv zeta. split_and!; [by repeat constructor|reflexivity|reflexivity|reflexivity].
Qed.

(** The check never answers the nil-file error for a file that is there. *)
Lemma fileHasOldBatches_Some_not_errNoFile now file :
  fileHasOldBatches now (Some file) <> Returns (Some errNoFile).
Proof.
  destruct (fileHasOldBatches_cases now file)
    as [(? & ? & ? & ? & _ & _ & _ & _ & ->)|[(_ & _ & ->)|(_ & _ & ->)]];
    discriminate.
Qed.

(** ** The create and delete endpoints *)

Section EndpointProperties.
Context {Svc Repo : Type} `{Service Svc} `{Repository Repo}.
Implicit Types w : world Svc Repo.

(** How the create endpoint runs on a file that is there: the counter, then
    the identifier, then the check, then the repository and the log. *)
Lemma createFileEndpoint_unfold logger req w f :
  File req = Some f ->
  createFileEndpoint logger req w
  = let w1 := if counted req
              then snd (filesCreated_Add (ach.ImmediateDestination (ach.Header f))
                                         (ach.ImmediateOrigin (ach.Header f)) 1 w)
              else w in
    let w2 := if bool_decide (ach.ID f = "") then snd (NextID w1) else w1 in
    let f' := identified w f in
    match fileHasOldBatches (clock w) (Some f') with
    | Panics p => (Panics p, w2)
    | Returns (Some err) =>
        (Returns ({| ID := ach.ID f'; Err := Some err |}, Some err), w2)
    | Returns None =>
        let w3 := snd (callStoreFile f' w2) in
        let err := fst (StoreFile f' (repository w)) in
        let w4 := if nonEmpty (requestId req) && logger
                  then snd (Log [LogString "files"; LogString "createFile";
                                 LogString "requestId"; LogString (requestId req);
                                 LogString "error"; LogError err] w3)
                  else w3 in
        (Returns ({| ID := ach.ID f'; Err := err |}, None), w4)
    end.
Proof.
  intros Hf. unfold createFileEndpoint, counted, identified. rewrite Hf.
  unfold mbind, prog_bind, lift, gets, when, mret, prog_ret, deref.
  destruct (nonEmpty _ && nonEmpty _);
    destruct (bool_decide (ach.ID f = ""));
    cbn -[fileHasOldBatches];
    (destruct (fileHasOldBatches _ _) as [[err|]|p]; [done| |done]);
    unfold callStoreFile; cbn;
    destruct (StoreFile _ _) as [err r']; cbn;
    destruct (nonEmpty (requestId req) && logger); done.
Qed.

(** C5: when the check fails on the submitted file (with its fresh
    identifier if it came without one), the create endpoint returns that
    error, in the response and beside it, together with the file's
    identifier (the one [NextID] handed out if the file came without one);
    the repository is left as it was, whatever [StoreFile] would do. *)
Theorem createFileEndpoint_rejects_without_storing logger req w f err :
  File req = Some f ->
  fileHasOldBatches (clock w) (Some (identified w f)) = Returns (Some err) ->
  exists w',
    createFileEndpoint logger req w
    = (Returns ({| ID := ach.ID (identified w f); Err := Some err |}, Some err), w')
    /\ repository w' = repository w
    /\ service w' = service w
    /\ logged w' = logged w
    /\ (ach.ID f = "" -> fst (NextID w) = Returns (ach.ID (identified w f)))
    /\ (ach.ID f <> "" -> ach.ID (identified w f) = ach.ID f).
Proof.
  intros Hf Hold. rewrite (createFileEndpoint_unfold _ _ _ _ Hf). cbv zeta.
  rewrite Hold. eexists. split; [reflexivity|].
  unfold identified.
  split_and!; try (destruct (counted req), (bool_decide (ach.ID f = "")); done).
  - intros ->. done.
  - intros Hne. by rewrite bool_decide_eq_false_2.
Qed.

(** C7: the create endpoint adds one to [filesCreated], under the file's
    destination and origin, when the file is there and both are non-empty;
    it leaves [filesCreated] as it was when the file is nil or either of
    them is empty.  This holds however the call ends. *)
Theorem createFileEndpoint_counts logger req w :
  let w' := snd (createFileEndpoint logger req w) in
  (forall f, File req = Some f ->
     ach.ImmediateDestination (ach.Header f) <> "" ->
     ach.ImmediateOrigin (ach.Header f) <> "" ->
     let label := (ach.ImmediateDestination (ach.Header f),
                   ach.ImmediateOrigin (ach.Header f)) in
     filesCreated w'
     = <[label := S (default 0%nat (filesCreated w !! label))]> (filesCreated w))
  /\ (File req = None -> filesCreated w' = filesCreated w)
  /\ (forall f, File req = Some f ->
        ach.ImmediateDestination (ach.Header f) = ""
        \/ ach.ImmediateOrigin (ach.Header f) = "" ->
        filesCreated w' = filesCreated w).
Proof.
  cbv zeta.
  assert (Hw : forall f, File req = Some f ->
            filesCreated (snd (createFileEndpoint logger req w))
            = filesCreated
                (if counted req
                 then snd (filesCreated_Add (ach.ImmediateDestination (ach.Header f))
                             (ach.ImmediateOrigin (ach.Header f)) 1 w)
                 else w)).
  { intros f Hf. rewrite (createFileEndpoint_unfold _ _ _ _ Hf). cbv zeta.
    destruct (fileHasOldBatches _ _) as [[err|]|p];
      destruct (counted req), (bool_decide (ach.ID f = ""));
      cbn -[StoreFile]; try done;
      unfold callStoreFile; cbn -[StoreFile];
      destruct (StoreFile _ _); destruct (nonEmpty (requestId req) && logger); done. }
  split_and!.
  - intros f Hf Hd Ho. rewrite (Hw f Hf). unfold counted, nonEmpty. rewrite Hf.
    rewrite !bool_decide_eq_true_2 by done. cbn.
    by rewrite Nat.add_1_r.
  - intros Hf. unfold createFileEndpoint. rewrite Hf. done.
  - intros f Hf Hempty. rewrite (Hw f Hf). unfold counted, nonEmpty. rewrite Hf.
    destruct Hempty as [-> | ->]; [done|].
    by rewrite andb_false_r.
Qed.

(** C8: the delete endpoint adds one to [filesDeleted] in every call,
    whatever [DeleteFile] answers; [filesDeleted] has no labels and
    [filesCreated] is left as it was.  The endpoint returns what
    [DeleteFile] answered inside its response. *)
Theorem deleteFileEndpoint_counts logger req w :
  let r := deleteFileEndpoint logger req w in
  filesDeleted (snd r) = S (filesDeleted w)
  /\ filesCreated (snd r) = filesCreated w
  /\ fst r = Returns ({| deleteErr := fst (DeleteFile (deleteID req) (service w)) |},
                      None).
Proof.
  cbv zeta. unfold deleteFileEndpoint, callDeleteFile.
  unfold mbind, prog_bind, when, mret, prog_ret. cbn -[DeleteFile].
  destruct (DeleteFile _ _) as [err s'].
  destruct (nonEmpty (deleteRequestId req) && logger); cbn;
    by rewrite Nat.add_1_r.
Qed.

(** C10: a create request with a nil file makes the endpoint panic on the
    nil pointer, with nothing counted, stored or logged; and whenever the
    endpoint returns, the file was there and the error returned beside the
    response is not the one of the nil guard of [fileHasOldBatches]. *)
Theorem createFileEndpoint_nil_file_panics logger req w :
  (File req = None ->
     createFileEndpoint logger req w = (Panics NilPointerDereference, w))
  /\ (forall resp e w',
        createFileEndpoint logger req w = (Returns (resp, e), w') ->
        is_Some (File req) /\ e <> Some errNoFile).
Proof.
  split.
  - intros Hf. unfold createFileEndpoint. rewrite Hf. done.
  - intros resp e w' Hret. destruct (File req) as [f|] eqn:Hf.
    + split; [done|]. rewrite (createFileEndpoint_unfold _ _ _ _ Hf) in Hret.
      cbv zeta in Hret.
      destruct (fileHasOldBatches _ _) as [[err|]|p] eqn:Hold.
      * injection Hret as _ <- _. intros [= ->].
        by apply fileHasOldBatches_Some_not_errNoFile in Hold.
      * injection Hret as _ <- _. done.
      * done.
    + unfold createFileEndpoint in Hret. rewrite Hf in Hret. done.
Qed.

End EndpointProperties.

(** ** The endpoints on the in-memory store *)

(** A file without identifier whose only batch is a day old: rejected under
    the first fresh identifier, with nothing stored. *)
Lemma createFileEndpoint_rejects_without_storing_witness :
  exists w',
    createFileEndpoint true
      {| File := Some (sampleFile "" [batchOn "B0" (daysAfter (-1) noon)] []);
         requestId := "r1" |} sampleWorld
    = (Returns
         ({| ID := "id-|";
             Err := Some (fmt_Errorf batchFormat
                            [ArgString "id-|"; ArgString "B0";
                             ArgTime (daysAfter (-1) noon)]) |},
          Some (fmt_Errorf batchFormat
                  [ArgString "id-|"; ArgString "B0";
                   ArgTime (daysAfter (-1) noon)])), w')
    /\ repository w' = ∅.
Proof.
  destruct (createFileEndpoint_rejects_without_storing true
              {| File := Some (sampleFile "" [batchOn "B0" (daysAfter (-1) noon)] []);
                 requestId := "r1" |}
              sampleWorld
              (sampleFile "" [batchOn "B0" (daysAfter (-1) noon)] [])
              (fmt_Errorf batchFormat
                 [ArgString "id-|"; ArgString "B0";
                  ArgTime (daysAfter (-1) noon)]))
    as (w' & Hrun & Hrepo & _).
  - reflexivity.
  - vm_compute. reflexivity.
  - exists w'. split; [exact Hrun|exact Hrepo].
Defined.

(** A file with both routing identifiers is counted once under them. *)
Lemma createFileEndpoint_counts_witness :
  filesCreated
    (snd (createFileEndpoint true
            {| File := Some (sampleFile "f1" [] []); requestId := "r1" |}
            sampleWorld))
  = {[ ("231380104", "121042882") := 1%nat ]}.
Proof.
  apply (proj1 (createFileEndpoint_counts true
                  {| File := Some (sampleFile "f1" [] []); requestId := "r1" |}
                  sampleWorld) (sampleFile "f1" [] [])).
  - reflexivity.
  - discriminate.
  - discriminate.
Defined.

(** A request without file. *)
Lemma createFileEndpoint_nil_file_panics_witness :
  createFileEndpoint true {| File := None; requestId := "r1" |} sampleWorld
  = (Panics NilPointerDereference, sampleWorld).
Proof.
  apply (proj1 (createFileEndpoint_nil_file_panics true
                  {| File := None; requestId := "r1" |} sampleWorld)).
  reflexivity.
Defined.

(** Deleting an identifier the store does not hold fails with NotFound and
    is counted all the same. *)
Example deleteFileEndpoint_not_found :
  let r := deleteFileEndpoint true
             {| deleteID := "nope"; deleteRequestId := "r1" |} sampleWorld in
  fst r = Returns ({| deleteErr := Some errNotFound |}, None)
  /\ filesDeleted (snd r) = 1%nat.
Proof. cbv zeta. split; reflexivity. Qed.

(** A file with an empty origin is stored and not counted. *)
Example createFileEndpoint_empty_origin :
  let f := {| ach.ID := "f1";
              ach.Header := {| ach.ImmediateDestination := "231380104";
                               ach.ImmediateOrigin := "" |};
              ach.Batches := []; ach.IATBatches := [] |} in
  let r := createFileEndpoint true {| File := Some f; requestId := "" |} sampleWorld in
  fst r = Returns ({| ID := "f1"; Err := None |}, None)
  /\ filesCreated (snd r) = ∅
  /\ repository (snd r) !! "f1" = Some f.
Proof. cbv zeta. split_and!; reflexivity. Qed.

(** ** The routing-number check digit *)

Lemma isDigits_spec n s :
  isDigits n s = true
  <-> length (chars s) = n /\ Forall (fun c => isDigit c = true) (chars s).
Proof.
  unfold isDigits. rewrite andb_true_iff, bool_decide_eq_true.
  rewrite forallb_forall, Forall_forall.
  split; intros [Hlen Hall]; (split; [done|]); intros c Hc; apply Hall;
    by apply list_elem_of_In.
Qed.

Lemma chars_append s t : chars (s +:+ t) = chars s ++ chars t.
Proof.
  unfold chars. induction s as [|c s IH]; [done|].
  change (String c s +:+ t) with (String c (s +:+ t)). cbn. by f_equal.
Qed.

Lemma substring_append s t :
  String.substring 0 (length (chars s)) (s +:+ t) = s.
Proof.
  induction s as [|c s IH].
  - by destruct t.
  - change (String c s +:+ t) with (String c (s +:+ t)). cbn. by f_equal.
Qed.

Lemma digitChar_digit d :
  0 <= d <= 9 -> isDigit (digitChar d) = true /\ digitValue (digitChar d) = d.
Proof.
  intros Hd.
  assert (Hcases : d = 0 \/ d = 1 \/ d = 2 \/ d = 3 \/ d = 4 \/ d = 5
                   \/ d = 6 \/ d = 7 \/ d = 8 \/ d = 9) by lia.
  repeat (destruct Hcases as [-> | Hcases]; [by split|]).
  subst d. by split.
Qed.

(** C4: on every 8-character string of ASCII digits, [CalculateCheckDigit]
    answers a digit from 0 to 9, which is (10 - (sum mod 10)) mod 10 for
    the sum of the digits under the weights 3, 7, 1, 3, 7, 1, 3, 7, and the
    string with that digit appended is accepted by [CheckRoutingNumber];
    on every other string it answers -1; and it answers 8 on "07300022",
    6 on "10200007" and -1 on the empty string and on "1a8ab". *)
Theorem CalculateCheckDigit_correct :
  (forall s,
     length (chars s) = 8%nat ->
     Forall (fun c => isDigit c = true) (chars s) ->
     0 <= CalculateCheckDigit s <= 9
     /\ CalculateCheckDigit s
        = (10 - weightedSum (digitValue <$> chars s) `mod` 10) `mod` 10
     /\ CheckRoutingNumber (appendDigit s (CalculateCheckDigit s)) = None)
  /\ (forall d1 d2 d3 d4 d5 d6 d7 d8,
        weightedSum [d1; d2; d3; d4; d5; d6; d7; d8]
        = 3 * d1 + 7 * d2 + 1 * d3 + 3 * d4 + 7 * d5 + 1 * d6 + 3 * d7 + 7 * d8)
  /\ (forall s,
        ~ (length (chars s) = 8%nat /\ Forall (fun c => isDigit c = true) (chars s)) ->
        CalculateCheckDigit s = -1)
  /\ CalculateCheckDigit "07300022" = 8
  /\ CalculateCheckDigit "10200007" = 6
  /\ CalculateCheckDigit "" = -1
  /\ CalculateCheckDigit "1a8ab" = -1.
Proof.
  split_and!; try reflexivity.
  - intros s Hlen Hdig.
    assert (H8 : isDigits 8 s = true) by by apply isDigits_spec.
    assert (Hval : CalculateCheckDigit s
                   = (10 - weightedSum (digitValue <$> chars s) `mod` 10) `mod` 10)
      by (unfold CalculateCheckDigit; by rewrite H8).
    assert (Hrange : 0 <= CalculateCheckDigit s <= 9)
      by (rewrite Hval; Z.div_mod_to_equations; lia).
    split_and!; [lia|lia|done|].
    destruct (digitChar_digit _ Hrange) as [Hisd Hdv].
    unfold CheckRoutingNumber, appendDigit.
    assert (H9 : isDigits 9 (s +:+ String (digitChar (CalculateCheckDigit s)) "") = true).
    { apply isDigits_spec. rewrite chars_append. split.
      - rewrite length_app, Hlen. done.
      - apply Forall_app. split; [done|]. by repeat constructor. }
    rewrite H9, chars_append.
    rewrite lookup_app_r by lia. rewrite Hlen. cbn [chars String.list_ascii_of_string lookup].
    replace (8 - 8)%nat with 0%nat by lia. cbn [lookup list_lookup].
    pose proof (substring_append s (String (digitChar (CalculateCheckDigit s)) ""))
      as Hsub.
    rewrite Hlen in Hsub. rewrite Hsub, Hdv, Z.eqb_refl. done.
  - intros. unfold weightedSum. cbn. lia.
  - intros s Hnot. unfold CalculateCheckDigit.
    destruct (isDigits 8 s) eqn:E; [|done].
    by apply isDigits_spec in E.
Qed.

(** The routing number of the first test vector. *)
Lemma CalculateCheckDigit_correct_witness :
  0 <= CalculateCheckDigit "07300022" <= 9
  /\ CalculateCheckDigit "07300022"
     = (10 - weightedSum (digitValue <$> chars "07300022") `mod` 10) `mod` 10
  /\ CheckRoutingNumber (appendDigit "07300022" (CalculateCheckDigit "07300022"))
     = None.
Proof.
  apply (proj1 CalculateCheckDigit_correct "07300022").
  - reflexivity.
  - repeat constructor.
Defined.

(** The remaining rows of the test table. *)
Example CalculateCheckDigit_test_table :
  CalculateCheckDigit "123456" = -1
  /\ CalculateCheckDigit "0730002a" = -1
  /\ CalculateCheckDigit "0730A002" = -1
  /\ CheckRoutingNumber "073000228" = None
  /\ CheckRoutingNumber "102000076" = None.
Proof. split_and!; reflexivity. Qed.

(** * Further properties of [files.go] *)

(** ** The temporal rule *)

(** X1: [today] is the last midnight of [now]'s location: it is at or
    before [now] and less than a day back, on a day boundary of that
    location, with no nanoseconds, in the same location; and the start of
    the day of [today] is [today] itself. *)
Theorem startOfToday_local_midnight now :
  let today := startOfToday now in
  time.sec today <= time.sec now < time.sec today + 86400
  /\ (time.sec today + time.offset (time.loc now)) `mod` 86400 = 0
  /\ time.nsec today = 0
  /\ time.loc today = time.loc now
  /\ startOfToday today = today.
Proof.
  cbv zeta. rewrite !startOfToday_midnight. cbn [time.sec time.nsec time.loc].
  split_and!; try (Z.div_mod_to_equations; lia); try done.
  f_equal. Z.div_mod_to_equations; lia.
Qed.

(** Moving [today] forward keeps an offender an offender. *)
Lemma Before_mono d t t' :
  time.sec t <= time.sec t' -> time.nsec t = 0 -> time.nsec t' = 0 ->
  time.Before d t = true -> time.Before d t' = true.
Proof.
  unfold time.Before. intros Hs -> ->.
  rewrite !orb_true_iff, !andb_true_iff, !Z.ltb_lt, !Z.eqb_eq. lia.
Qed.

Lemma startOfToday_mono now now' :
  time.loc now = time.loc now' -> time.sec now <= time.sec now' ->
  time.sec (startOfToday now) <= time.sec (startOfToday now').
Proof.
  intros Hloc Hle. rewrite !startOfToday_midnight. cbn [time.sec].
  rewrite Hloc. Z.div_mod_to_equations; lia.
Qed.

Lemma stale_mono now now' b :
  time.loc now = time.loc now' -> time.sec now <= time.sec now' ->
  stale (startOfToday now) b = true -> stale (startOfToday now') b = true.
Proof.
  intros Hloc Hle. unfold stale.
  destruct (ach.Batcher.GetHeader b) as [header|]; [|done].
  apply Before_mono.
  - by apply startOfToday_mono.
  - by rewrite startOfToday_midnight.
  - by rewrite startOfToday_midnight.
Qed.

(** The check answers nil exactly on the files without offender in
    [Batches] whose [IATBatches] is not the longer slice. *)
Lemma fileHasOldBatches_nil_iff now file :
  fileHasOldBatches now (Some file) = Returns None
  <-> Forall (fun b => stale (startOfToday now) b = false) (ach.Batches file)
      /\ (length (ach.IATBatches file) <= length (ach.Batches file))%nat.
Proof.
  destruct (fileHasOldBatches_cases now file)
    as [(pre & b & header & post & Hl & _ & Hh & Hb & ->)
       |[(Hf & Hlen & ->)|(Hf & Hlen & ->)]].
  - split; [done|]. intros [Hf _]. rewrite Hl in Hf.
    apply Forall_app in Hf as [_ Hf]. apply Forall_cons in Hf as [Hf _].
    unfold stale in Hf. rewrite Hh in Hf. congruence.
  - done.
  - split; [done|]. intros [_ ?]. lia.
Qed.

(** The check answers an error exactly on the files with an offender in
    [Batches]. *)
Lemma fileHasOldBatches_error_iff now file :
  (exists e, fileHasOldBatches now (Some file) = Returns (Some e))
  <-> Exists (fun b => stale (startOfToday now) b = true) (ach.Batches file).
Proof.
  destruct (fileHasOldBatches_cases now file)
    as [(pre & b & header & post & Hl & _ & Hh & Hb & ->)
       |[(Hf & Hlen & ->)|(Hf & Hlen & ->)]].
  - split; [|by eexists]. intros _. rewrite Hl.
    apply Exists_app. right. apply Exists_cons_hd. unfold stale. by rewrite Hh.
  - split; [by intros [? ?]|]. intros Hex. exfalso.
    apply Exists_exists in Hex as (b & Hin & Hb).
    rewrite Forall_forall in Hf. specialize (Hf b Hin). congruence.
  - split; [by intros [? ?]|]. intros Hex. exfalso.
    apply Exists_exists in Hex as (b & Hin & Hb).
    rewrite Forall_forall in Hf. specialize (Hf b Hin). congruence.
Qed.

(** X2: on a file that is there, [fileHasOldBatches] panics exactly when
    [IATBatches] is longer than [Batches] and no batch of [Batches] has a
    header dated before today; the panic is then the one of indexing
    [Batches] at its length.  On every other file it returns. *)
Theorem fileHasOldBatches_panics_iff now file p :
  fileHasOldBatches now (Some file) = Panics p
  <-> (length (ach.Batches file) < length (ach.IATBatches file))%nat
      /\ Forall (fun b => stale (startOfToday now) b = false) (ach.Batches file)
      /\ p = IndexOutOfRange (length (ach.Batches file)) (length (ach.Batches file)).
Proof.
  destruct (fileHasOldBatches_cases now file)
    as [(pre & b & header & post & Hl & _ & Hh & Hb & ->)
       |[(Hf & Hlen & ->)|(Hf & Hlen & ->)]].
  - split; [done|]. intros (_ & Hf & _). rewrite Hl in Hf.
    apply Forall_app in Hf as [_ Hf]. apply Forall_cons in Hf as [Hf _].
    unfold stale in Hf. rewrite Hh in Hf. congruence.
  - split; [done|]. intros (? & _ & _). lia.
  - split; [by intros [= <-]|]. by intros (_ & _ & ->).
Qed.

(** A file with one batch and three international batches, dated today. *)
Lemma fileHasOldBatches_panics_iff_witness :
  fileHasOldBatches noon
    (Some (sampleFile "f1" [batchOn "B0" noon]
             [iatBatchOn "I0" noon; iatBatchOn "I1" noon; iatBatchOn "I2" noon]))
  = Panics (IndexOutOfRange 1 1).
Proof.
  apply (proj2 (fileHasOldBatches_panics_iff noon
                  (sampleFile "f1" [batchOn "B0" noon]
                     [iatBatchOn "I0" noon; iatBatchOn "I1" noon; iatBatchOn "I2" noon])
                  (IndexOutOfRange 1 1))).
  split_and!.
  - cbn. lia.
  - repeat constructor.
  - reflexivity.
Defined.

(** X3: every error that [fileHasOldBatches] returns for a file that is
    there was built for a batch of [Batches] whose header is dated before
    today, with the format of the first loop; the format of the second loop
    ("IATBatch=") is never used. *)
Theorem fileHasOldBatches_error_names_batch now file e :
  fileHasOldBatches now (Some file) = Returns (Some e) ->
  (exists b header,
      b ∈ ach.Batches file
      /\ ach.Batcher.GetHeader b = Some header
      /\ time.Before (ach.EffectiveEntryDate header) (startOfToday now) = true
      /\ e = fmt_Errorf batchFormat
               [ArgString (ach.ID file); ArgString (ach.Batcher.ID b);
                ArgTime (ach.EffectiveEntryDate header)])
  /\ forall args, e <> fmt_Errorf iatBatchFormat args.
Proof.
  intros He.
  destruct (fileHasOldBatches_cases now file)
    as [(pre & b & header & post & Hl & _ & Hh & Hb & Hr)
       |[(_ & _ & Hr)|(_ & _ & Hr)]]; [|congruence|congruence].
  rewrite Hr in He. injection He as <-. split.
  - exists b, header. split_and!; [|done|done|done].
    rewrite Hl. apply elem_of_app. right. apply elem_of_cons. by left.
  - intros args. unfold staleError. discriminate.
Qed.

(** A file whose second batch is a day old. *)
Lemma fileHasOldBatches_error_names_batch_witness :
  exists b header,
    b ∈ [batchOn "B0" noon; batchOn "B1" (daysAfter (-1) noon)]
    /\ ach.Batcher.GetHeader b = Some header
    /\ time.Before (ach.EffectiveEntryDate header) (startOfToday noon) = true
    /\ fmt_Errorf batchFormat
         [ArgString "f1"; ArgString "B1"; ArgTime (daysAfter (-1) noon)]
       = fmt_Errorf batchFormat
           [ArgString "f1"; ArgString (ach.Batcher.ID b);
            ArgTime (ach.EffectiveEntryDate header)].
Proof.
  apply (fileHasOldBatches_error_names_batch noon
           (sampleFile "f1" [batchOn "B0" noon; batchOn "B1" (daysAfter (-1) noon)]
                       [iatBatchOn "I0" noon])).
  vm_compute. reflexivity.
Defined.

(** X4: the first batch of [Batches] whose header is dated before today
    decides the answer: the check returns the error naming the file's ID,
    that batch's ID and its date, whatever batches follow it, whatever the
    file's header is and whatever [IATBatches] holds. *)
Theorem fileHasOldBatches_stops_at_first_stale now id hdr pre b header post iats :
  Forall (fun b => stale (startOfToday now) b = false) pre ->
  ach.Batcher.GetHeader b = Some header ->
  time.Before (ach.EffectiveEntryDate header) (startOfToday now) = true ->
  fileHasOldBatches now
    (Some {| ach.ID := id; ach.Header := hdr;
             ach.Batches := pre ++ b :: post; ach.IATBatches := iats |})
  = Returns (Some (fmt_Errorf batchFormat
                     [ArgString id; ArgString (ach.Batcher.ID b);
                      ArgTime (ach.EffectiveEntryDate header)])).
Proof.
  intros Hpre Hh Hb. unfold fileHasOldBatches.
  rewrite batchesLoop_scan. cbn [ach.Batches].
  by rewrite (scan_first_stale _ _ _ _ _ _ _ Hpre Hh Hb).
Qed.

(** Two old batches after a batch dated today, and more international
    batches than batches: the first old batch is reported. *)
Lemma fileHasOldBatches_stops_at_first_stale_witness :
  fileHasOldBatches noon
    (Some {| ach.ID := "f1"; ach.Header := sampleHeader;
             ach.Batches := [batchOn "B0" noon]
                            ++ batchOn "B1" (daysAfter (-1) noon)
                            :: [batchOn "B2" (daysAfter (-2) noon)];
             ach.IATBatches := [iatBatchOn "I0" noon; iatBatchOn "I1" noon;
                                iatBatchOn "I2" noon; iatBatchOn "I3" noon] |})
  = Returns (Some (fmt_Errorf batchFormat
                     [ArgString "f1"; ArgString "B1";
                      ArgTime (daysAfter (-1) noon)])).
Proof.
  apply (fileHasOldBatches_stops_at_first_stale noon "f1" sampleHeader
           [batchOn "B0" noon] (batchOn "B1" (daysAfter (-1) noon))
           {| ach.EffectiveEntryDate := daysAfter (-1) noon |}
           [batchOn "B2" (daysAfter (-2) noon)]).
  - repeat constructor.
  - reflexivity.
  - reflexivity.
Defined.

Lemma scan_filter_headers format today file (l : list ach.Batcher.t) :
  scan (checkHeader format today file)
       (filter (fun b => is_Some (ach.Batcher.GetHeader b)) l)
  = scan (checkHeader format today file) l.
Proof.
  induction l as [|b l IH]; [done|].
  rewrite filter_cons. case_decide as Hh.
  - cbn [scan]. by rewrite IH.
  - cbn [scan]. rewrite IH. unfold checkHeader at 2.
    destruct (ach.Batcher.GetHeader b) as [h|]; [|done].
    exfalso. apply Hh. by eexists.
Qed.

(** X5: batches without header are passed over: on a file without
    international batches the check answers what it answers once every
    batch without header is taken out of [Batches]. *)
Theorem fileHasOldBatches_skips_headerless now file :
  ach.IATBatches file = [] ->
  fileHasOldBatches now (Some file)
  = fileHasOldBatches now
      (Some (ach.setBatches file
               (filter (fun b => is_Some (ach.Batcher.GetHeader b))
                       (ach.Batches file)))).
Proof.
  intros Hiat. unfold fileHasOldBatches.
  rewrite !batchesLoop_scan. unfold iatBatchesLoop.
  cbn [ach.setBatches ach.Batches ach.IATBatches]. rewrite Hiat.
  cbn [length forRange].
  rewrite <- (scan_filter_headers batchFormat (startOfToday now) file (ach.Batches file)).
  done.
Qed.

(** An old batch between two batches without header. *)
Lemma fileHasOldBatches_skips_headerless_witness :
  let headerless id :=
    {| ach.Batcher.GetHeader := None; ach.Batcher.ID := id |} in
  fileHasOldBatches noon
    (Some (sampleFile "f1" [headerless "B0"; batchOn "B1" (daysAfter (-1) noon);
                            headerless "B2"] []))
  = fileHasOldBatches noon
      (Some (sampleFile "f1" [batchOn "B1" (daysAfter (-1) noon)] [])).
Proof.
  cbv zeta.
  apply (fileHasOldBatches_skips_headerless noon
           (sampleFile "f1"
              [{| ach.Batcher.GetHeader := None; ach.Batcher.ID := "B0" |};
               batchOn "B1" (daysAfter (-1) noon);
               {| ach.Batcher.GetHeader := None; ach.Batcher.ID := "B2" |}] [])).
  reflexivity.
Defined.

(** X6: with the clock moved forward in the same location, a file the
    check rejected is still rejected, and a file the check passes now was
    passed at every earlier instant. *)
Theorem fileHasOldBatches_later now now' file :
  time.loc now = time.loc now' ->
  time.sec now <= time.sec now' ->
  ((exists e, fileHasOldBatches now (Some file) = Returns (Some e)) ->
   exists e', fileHasOldBatches now' (Some file) = Returns (Some e'))
  /\ (fileHasOldBatches now' (Some file) = Returns None ->
      fileHasOldBatches now (Some file) = Returns None).
Proof.
  intros Hloc Hle.
  assert (Hex : Exists (fun b => stale (startOfToday now) b = true) (ach.Batches file) ->
                Exists (fun b => stale (startOfToday now') b = true) (ach.Batches file)).
  { intros Hex. eapply Exists_impl; [exact Hex|]. intros b. by apply stale_mono. }
  split.
  - rewrite !fileHasOldBatches_error_iff. done.
  - rewrite !fileHasOldBatches_nil_iff. intros [Hf Hlen]. split; [|done].
    apply Forall_forall. intros b Hb.
    destruct (stale (startOfToday now) b) eqn:E; [|done].
    rewrite Forall_forall in Hf. rewrite <- (Hf b Hb). symmetry.
    by apply (stale_mono now now').
Qed.

(** A batch dated the day of [noon] is rejected a day later, and so two
    days later. *)
Lemma fileHasOldBatches_later_witness :
  exists e', fileHasOldBatches (daysAfter 2 noon)
               (Some (sampleFile "f1" [batchOn "B0" noon] [])) = Returns (Some e').
Proof.
  apply (proj1 (fileHasOldBatches_later (daysAfter 1 noon) (daysAfter 2 noon)
                  (sampleFile "f1" [batchOn "B0" noon] [])
                  eq_refl ltac:(vm_compute; discriminate))).
  eexists. vm_compute. reflexivity.
Defined.

(** X7: what the date of a header means for the check, with [now] a
    well-formed instant: a batch dated at [now] or later does not offend,
    and a batch dated a day or more before [now] does.  So a file whose
    batches all carry a header dated at [now] or later passes when
    [IATBatches] is not the longer slice, and a file with a batch dated a
    day or more before [now] is rejected. *)
Theorem fileHasOldBatches_by_date now file :
  0 <= time.nsec now ->
  (Forall (fun b => exists header,
             ach.Batcher.GetHeader b = Some header
             /\ time.Before (ach.EffectiveEntryDate header) now = false)
          (ach.Batches file) ->
   (length (ach.IATBatches file) <= length (ach.Batches file))%nat ->
   fileHasOldBatches now (Some file) = Returns None)
  /\ (Exists (fun b => exists header,
                ach.Batcher.GetHeader b = Some header
                /\ time.sec (ach.EffectiveEntryDate header) + 86400 <= time.sec now)
             (ach.Batches file) ->
      exists e, fileHasOldBatches now (Some file) = Returns (Some e)).
Proof.
  intros Hns.
  pose proof (startOfToday_bounds now) as (Hsec & _ & Hnsec). cbv zeta in Hsec, Hnsec.
  split.
  - intros Hall Hlen. apply fileHasOldBatches_nil_iff. split; [|done].
    eapply Forall_impl; [exact Hall|]. intros b (header & Hh & Hb).
    unfold stale. rewrite Hh. revert Hb. unfold time.Before. rewrite Hnsec.
    rewrite !orb_false_iff, !andb_false_iff, !Z.ltb_ge, !Z.eqb_neq. lia.
  - intros Hex. apply fileHasOldBatches_error_iff.
    eapply Exists_impl; [exact Hex|]. intros b (header & Hh & Hb).
    unfold stale. rewrite Hh. unfold time.Before.
    rewrite orb_true_iff, Z.ltb_lt. lia.
Qed.

(** A batch dated a day before [noon]. *)
Lemma fileHasOldBatches_by_date_witness :
  exists e, fileHasOldBatches noon
              (Some (sampleFile "f1" [batchOn "B0" (daysAfter (-1) noon)] []))
            = Returns (Some e).
Proof.
  apply (proj2 (fileHasOldBatches_by_date noon
                  (sampleFile "f1" [batchOn "B0" (daysAfter (-1) noon)] [])
                  ltac:(vm_compute; discriminate))).
  apply Exists_cons_hd. eexists. split; [reflexivity|].
  vm_compute. discriminate.
Defined.

(** X8: the check answers the same at any two instants of the same day of
    the same location. *)
Theorem fileHasOldBatches_same_day now now' file :
  time.loc now = time.loc now' ->
  (time.sec now + time.offset (time.loc now)) `div` 86400
  = (time.sec now' + time.offset (time.loc now')) `div` 86400 ->
  fileHasOldBatches now (Some file) = fileHasOldBatches now' (Some file).
Proof.
  intros Hloc Hday.
  assert (Htoday : startOfToday now = startOfToday now').
  { rewrite !startOfToday_midnight. rewrite <- Hloc in *. f_equal.
    Z.div_mod_to_equations; lia. }
  unfold fileHasOldBatches. by rewrite Htoday.
Qed.

(** Noon and the last second of the same day. *)
Lemma fileHasOldBatches_same_day_witness :
  let lastSecond :=
    {| time.sec := 1541030399; time.nsec := 999999999; time.loc := time.UTC |} in
  fileHasOldBatches noon (Some (sampleFile "f1" [batchOn "B0" noon] []))
  = fileHasOldBatches lastSecond (Some (sampleFile "f1" [batchOn "B0" noon] [])).
Proof.
  cbv zeta.
  apply (fileHasOldBatches_same_day noon
           {| time.sec := 1541030399; time.nsec := 999999999; time.loc := time.UTC |}).
  - reflexivity.
  - reflexivity.
Defined.

(** ** The create endpoint *)

Section CreateProperties.
Context {Svc Repo : Type} `{Service Svc} `{Repository Repo}.
Implicit Types w : world Svc Repo.

(** The line the create endpoint logs for a store that answered [err]. *)
Local Abbreviation createLine req err :=
  [LogString "files"; LogString "createFile";
   LogString "requestId"; LogString (requestId req);
   LogString "error"; LogError err].

(** X9: when the check passes, the create endpoint hands the file (with its
    fresh identifier if it came without one) to [StoreFile] once; the
    response carries the file's ID and whatever [StoreFile] answered, while
    the error beside the response is nil even if the store failed.  The
    repository is left as [StoreFile] left it, and one line is logged if,
    and only if, the request has a request ID and there is a logger. *)
Theorem createFileEndpoint_stores logger req w f :
  File req = Some f ->
  fileHasOldBatches (clock w) (Some (identified w f)) = Returns None ->
  let stored := StoreFile (identified w f) (repository w) in
  let r := createFileEndpoint logger req w in
  fst r = Returns ({| ID := ach.ID (identified w f); Err := fst stored |}, None)
  /\ repository (snd r) = snd stored
  /\ service (snd r) = service w
  /\ logged (snd r)
     = if nonEmpty (requestId req) && logger
       then createLine req (fst stored) :: logged w
       else logged w.
Proof.
  intros Hf Hold. cbv zeta. rewrite (createFileEndpoint_unfold _ _ _ _ Hf).
  cbv zeta. rewrite Hold. unfold callStoreFile.
  destruct (counted req), (bool_decide (ach.ID f = ""));
    cbn -[StoreFile identified];
    destruct (StoreFile _ _) as [err r'];
    destruct (nonEmpty (requestId req) && logger); done.
Qed.

(** X10: when the check panics, the create endpoint panics with the same
    panic; nothing has been stored or logged at that point. *)
Theorem createFileEndpoint_check_panics logger req w f p :
  File req = Some f ->
  fileHasOldBatches (clock w) (Some (identified w f)) = Panics p ->
  let r := createFileEndpoint logger req w in
  fst r = Panics p
  /\ repository (snd r) = repository w
  /\ service (snd r) = service w
  /\ logged (snd r) = logged w.
Proof.
  intros Hf Hold. cbv zeta. rewrite (createFileEndpoint_unfold _ _ _ _ Hf).
  cbv zeta. rewrite Hold.
  destruct (counted req), (bool_decide (ach.ID f = "")); done.
Qed.

(** X11: for a file that is there, the create endpoint takes an identifier
    from [NextID] exactly when the file came without one, and it does so
    before the check: the identifier is used up also when the file is then
    rejected or the check panics.  The endpoint never touches
    [filesDeleted]. *)
Theorem createFileEndpoint_takes_identifier logger req w f :
  File req = Some f ->
  let w' := snd (createFileEndpoint logger req w) in
  idsTaken w' = (if bool_decide (ach.ID f = "") then S (idsTaken w) else idsTaken w)
  /\ idStream w' = idStream w
  /\ filesDeleted w' = filesDeleted w.
Proof.
  intros Hf. cbv zeta. rewrite (createFileEndpoint_unfold _ _ _ _ Hf).
  cbv zeta. unfold callStoreFile.
  destruct (fileHasOldBatches _ _) as [[err|]|p];
    destruct (counted req), (bool_decide (ach.ID f = ""));
    cbn -[StoreFile identified]; try done;
    destruct (StoreFile _ _) as [err r'];
    destruct (nonEmpty (requestId req) && logger); done.
Qed.

(** X12: whenever the create endpoint returns, the file was there, the
    error beside the response is exactly what the check returned for the
    file, and the response carries the file's ID; an error of the store is
    found in the response only. *)
Theorem createFileEndpoint_returns logger req w resp e w' :
  createFileEndpoint logger req w = (Returns (resp, e), w') ->
  exists f,
    File req = Some f
    /\ fileHasOldBatches (clock w) (Some (identified w f)) = Returns e
    /\ ID resp = ach.ID (identified w f)
    /\ Err resp = match e with
                  | Some err => Some err
                  | None => fst (StoreFile (identified w f) (repository w))
                  end.
Proof.
  intros Hret. destruct (File req) as [f|] eqn:Hf.
  - exists f. split; [done|].
    rewrite (createFileEndpoint_unfold _ _ _ _ Hf) in Hret. cbv zeta in Hret.
    destruct (fileHasOldBatches _ _) as [[err|]|p]; [| |done].
    + injection Hret as <- <- _. done.
    + injection Hret as <- <- _. done.
  - unfold createFileEndpoint in Hret. rewrite Hf in Hret. done.
Qed.

(** X13: the ID in the response of the create endpoint is the submitted
    one when that is not empty, and otherwise the one [NextID] handed out;
    it is not empty as long as [NextID] hands out no empty identifier. *)
Theorem createFileEndpoint_response_ID logger req w f resp e w' :
  File req = Some f ->
  createFileEndpoint logger req w = (Returns (resp, e), w') ->
  (ach.ID f <> "" -> ID resp = ach.ID f)
  /\ (ach.ID f = "" -> fst (NextID w) = Returns (ID resp))
  /\ ((forall n, idStream w n <> "") -> ID resp <> "").
Proof.
  intros Hf Hret.
  assert (Hid : ID resp = ach.ID (identified w f)).
  { rewrite (createFileEndpoint_unfold _ _ _ _ Hf) in Hret. cbv zeta in Hret.
    destruct (fileHasOldBatches _ _) as [[err|]|p]; [| |done];
      by injection Hret as <- _ _. }
  rewrite Hid. unfold identified. split_and!.
  - intros Hne. by rewrite bool_decide_eq_false_2.
  - intros ->. done.
  - intros Hstream. case_bool_decide as Hempty; [apply Hstream|done].
Qed.

(** The filesCreated counter after one call. *)
Lemma createFileEndpoint_filesCreated logger req w :
  filesCreated (snd (createFileEndpoint logger req w))
  = match countedLabel req with
    | Some label =>
        <[label := S (default 0%nat (filesCreated w !! label))]> (filesCreated w)
    | None => filesCreated w
    end.
Proof.
  unfold countedLabel. destruct (File req) as [f|] eqn:Hf.
  - rewrite (createFileEndpoint_unfold _ _ _ _ Hf). cbv zeta.
    unfold callStoreFile.
    destruct (fileHasOldBatches _ _) as [[err|]|p];
      destruct (counted req), (bool_decide (ach.ID f = ""));
      cbn -[StoreFile identified]; rewrite ?Nat.add_1_r; try done;
      destruct (StoreFile _ _) as [err r'];
      destruct (nonEmpty (requestId req) && logger); done.
  - unfold createFileEndpoint. rewrite Hf. done.
Qed.

Lemma createFileEndpoint_filesDeleted logger req w :
  filesDeleted (snd (createFileEndpoint logger req w)) = filesDeleted w.
Proof.
  destruct (File req) as [f|] eqn:Hf.
  - rewrite (createFileEndpoint_unfold _ _ _ _ Hf). cbv zeta.
    unfold callStoreFile.
    destruct (fileHasOldBatches _ _) as [[err|]|p];
      destruct (counted req), (bool_decide (ach.ID f = ""));
      cbn -[StoreFile identified]; try done;
      destruct (StoreFile _ _) as [err r'];
      destruct (nonEmpty (requestId req) && logger); done.
  - unfold createFileEndpoint. rewrite Hf. done.
Qed.

(** X14: after any list of create requests served in order, whether they
    were stored, rejected or ended in a panic, the count of [filesCreated]
    under a pair of labels has grown by the number of requests with a file
    that carries exactly that destination and origin, both non-empty;
    [filesDeleted] has not moved. *)
Theorem createFileEndpoint_counts_all logger reqs w label :
  let w' := serveAll (createFileEndpoint logger) reqs w in
  default 0%nat (filesCreated w' !! label)
  = (default 0%nat (filesCreated w !! label)
     + length (filter (fun req => countedLabel req = Some label) reqs))%nat
  /\ filesDeleted w' = filesDeleted w.
Proof.
  cbv zeta. revert w. induction reqs as [|req reqs IH]; intros w.
  - cbn. split; [lia|done].
  - cbn [serveAll]. destruct (IH (snd (createFileEndpoint logger req w))) as [IHc IHd].
    rewrite IHc, IHd, createFileEndpoint_filesCreated, createFileEndpoint_filesDeleted.
    split; [|done]. rewrite filter_cons.
    destruct (countedLabel req) as [l|] eqn:Hl.
    + destruct (decide (l = label)) as [->|Hne].
      * rewrite lookup_insert_eq, decide_True by done. cbn. lia.
      * rewrite lookup_insert_ne by done.
        rewrite decide_False by congruence. done.
    + rewrite decide_False by done. done.
Qed.

End CreateProperties.

(** A file with a batch dated today, stored under its own ID. *)
Lemma createFileEndpoint_stores_witness :
  let f := sampleFile "f1" [batchOn "B0" noon] [] in
  let r := createFileEndpoint true {| File := Some f; requestId := "r1" |} sampleWorld in
  fst r = Returns ({| ID := "f1"; Err := None |}, None)
  /\ repository (snd r) = {[ "f1" := f ]}.
Proof.
  cbv zeta.
  destruct (createFileEndpoint_stores true
              {| File := Some (sampleFile "f1" [batchOn "B0" noon] []);
                 requestId := "r1" |}
              sampleWorld (sampleFile "f1" [batchOn "B0" noon] [])
              eq_refl eq_refl) as (Hr & Hrepo & _).
  split; [exact Hr|exact Hrepo].
Defined.

(** A file with more international batches than batches: the endpoint
    panics where the check does. *)
Lemma createFileEndpoint_check_panics_witness :
  let r := createFileEndpoint true
             {| File := Some (sampleFile "f1" [] [iatBatchOn "I0" noon]);
                requestId := "r1" |} sampleWorld in
  fst r = Panics (IndexOutOfRange 0 0)
  /\ repository (snd r) = ∅
  /\ service (snd r) = ∅
  /\ logged (snd r) = [].
Proof.
  cbv zeta.
  apply (createFileEndpoint_check_panics true
           {| File := Some (sampleFile "f1" [] [iatBatchOn "I0" noon]);
              requestId := "r1" |}
           sampleWorld (sampleFile "f1" [] [iatBatchOn "I0" noon])).
  - reflexivity.
  - reflexivity.
Defined.

(** A file without ID and with an old batch: rejected, and the identifier
    is used up. *)
Lemma createFileEndpoint_takes_identifier_witness :
  let req := {| File := Some (sampleFile "" [batchOn "B0" (daysAfter (-1) noon)] []);
                requestId := "r1" |} in
  let w' := snd (createFileEndpoint true req sampleWorld) in
  idsTaken w' = 1%nat
  /\ idStream w' = idStream sampleWorld
  /\ filesDeleted w' = 0%nat.
Proof.
  cbv zeta.
  apply (createFileEndpoint_takes_identifier true
           {| File := Some (sampleFile "" [batchOn "B0" (daysAfter (-1) noon)] []);
              requestId := "r1" |}
           sampleWorld (sampleFile "" [batchOn "B0" (daysAfter (-1) noon)] [])).
  reflexivity.
Defined.

(** A file with a batch dated today: the check answered nil. *)
Lemma createFileEndpoint_returns_witness :
  exists f,
    Some (sampleFile "f1" [batchOn "B0" noon] []) = Some f
    /\ fileHasOldBatches noon (Some (identified sampleWorld f)) = Returns None
    /\ "f1" = ach.ID (identified sampleWorld f)
    /\ None = fst (StoreFile (identified sampleWorld f) (repository sampleWorld)).
Proof.
  apply (createFileEndpoint_returns true
           {| File := Some (sampleFile "f1" [batchOn "B0" noon] []);
              requestId := "r1" |}
           sampleWorld {| ID := "f1"; Err := None |} None
           (snd (createFileEndpoint true
                   {| File := Some (sampleFile "f1" [batchOn "B0" noon] []);
                      requestId := "r1" |} sampleWorld))).
  reflexivity.
Defined.

(** A file without ID: the response carries the first sample identifier. *)
Lemma createFileEndpoint_response_ID_witness :
  fst (NextID sampleWorld) = Returns "id-|".
Proof.
  apply (proj1 (proj2 (createFileEndpoint_response_ID true
           {| File := Some (sampleFile "" [batchOn "B0" noon] []);
              requestId := "r1" |}
           sampleWorld (sampleFile "" [batchOn "B0" noon] [])
           {| ID := "id-|"; Err := None |} None
           (snd (createFileEndpoint true
                   {| File := Some (sampleFile "" [batchOn "B0" noon] []);
                      requestId := "r1" |} sampleWorld))
           ltac:(reflexivity) ltac:(reflexivity)))).
  reflexivity.
Defined.

(** Three requests under the sample labels (one stored, one rejected, one
    ending in a panic), one without origin and one without file. *)
Example createFileEndpoint_counts_all_sample :
  let noOrigin := {| ach.ID := "f4";
                     ach.Header := {| ach.ImmediateDestination := "231380104";
                                      ach.ImmediateOrigin := "" |};
                     ach.Batches := []; ach.IATBatches := [] |} in
  let reqs :=
    [ {| File := Some (sampleFile "f1" [batchOn "B0" noon] []); requestId := "" |};
      {| File := Some (sampleFile "f2" [batchOn "B0" (daysAfter (-1) noon)] []);
         requestId := "" |};
      {| File := Some (sampleFile "f3" [] [iatBatchOn "I0" noon]); requestId := "" |};
      {| File := Some noOrigin; requestId := "" |};
      {| File := None; requestId := "" |} ] in
  let w' := serveAll (createFileEndpoint true) reqs sampleWorld in
  filesCreated w' = {[ ("231380104", "121042882") := 3%nat ]}
  /\ dom (repository w') = {[ "f1"; "f4" ]}.
Proof. cbv zeta. split; reflexivity. Qed.

(** ** The delete endpoint *)


(** The delete endpoint hands the ID of the request to [DeleteFile] once
    and leaves the service as that call left it; it logs one line, with the
    error [DeleteFile] answered, if and only if the request has a request
    ID and there is a logger. *)
Lemma deleteFileEndpoint_calls_service {Svc Repo : Type} `{Service Svc}
    logger req (w : world Svc Repo) :
  let r := deleteFileEndpoint logger req w in
  let deleted := DeleteFile (deleteID req) (service w) in
  service (snd r) = snd deleted
  /\ logged (snd r)
     = if nonEmpty (deleteRequestId req) && logger
       then [LogString "files"; LogString "deleteFile";
             LogString "requestId"; LogString (deleteRequestId req);
             LogString "error"; LogError (fst deleted)] :: logged w
       else logged w.
Proof.
  cbv zeta. unfold deleteFileEndpoint, callDeleteFile.
  unfold mbind, prog_bind, when, mret, prog_ret. cbn -[DeleteFile].
  destruct (DeleteFile _ _) as [err s'].
  destruct (nonEmpty (deleteRequestId req) && logger); done.
Qed.

(** ** The get, contents and validate endpoints *)

Section QueryProperties.
Context {Svc Repo : Type} `{ServiceQueries Svc}.
Implicit Types w : world Svc Repo.




End QueryProperties.

(** ** Decoding requests *)

Lemma strings_Contains_unfold s substr :
  strings_Contains s substr
  = String.prefix substr s
    || match s with
       | EmptyString => false
       | String _ s' => strings_Contains s' substr
       end.
Proof. by destruct s. Qed.

Lemma prefix_append p t : String.prefix p (p +:+ t) = true.
Proof.
  induction p as [|c p IH].
  - change ("" +:+ t) with t. by destruct t.
  - change (String c p +:+ t) with (String c (p +:+ t)). cbn.
    by destruct (Ascii.ascii_dec c c).
Qed.

Lemma prefix_inv p s : String.prefix p s = true -> exists t, s = p +:+ t.
Proof.
  revert s. induction p as [|c p IH]; intros s Hp.
  - by exists s.
  - destruct s as [|d s]; [done|]. cbn in Hp.
    destruct (Ascii.ascii_dec c d) as [->|]; [|done].
    destruct (IH _ Hp) as [t ->]. by exists t.
Qed.

(** [strings_Contains] finds exactly the strings with [substr] somewhere
    inside. *)
Lemma strings_Contains_spec s substr :
  strings_Contains s substr = true
  <-> exists pre post, s = pre +:+ substr +:+ post.
Proof.
  split.
  - induction s as [|c s IH]; rewrite strings_Contains_unfold, orb_true_iff.
    + intros [Hp|?]; [|done]. apply prefix_inv in Hp as [t ->].
      by exists "", t.
    + intros [Hp|Hc].
      * apply prefix_inv in Hp as [t ->]. by exists "", t.
      * destruct (IH Hc) as (pre & post & ->). by exists (String c pre), post.
  - intros (pre & post & ->). induction pre as [|c pre IH].
    + rewrite strings_Contains_unfold.
      change ("" +:+ substr +:+ post) with (substr +:+ post).
      by rewrite prefix_append.
    + change (String c pre +:+ substr +:+ post)
        with (String c (pre +:+ substr +:+ post)).
      cbn [strings_Contains]. rewrite IH. apply orb_true_r.
Qed.

Section DecoderProperties.
Context (ErrBadRouting : error) (GetRequestId : httpRequest -> string).
Context (FileFromJSON : string -> option ach.File * option error).
Context (ReaderRead : string -> ach.File * option error).

Local Abbreviation decodeCreate NewFile :=
  (decodeCreateFileRequest GetRequestId NewFile FileFromJSON ReaderRead).

(** X19: how a create request is decoded.  An error of reading the body is
    returned whatever the content type.  Otherwise a [Content-Type] with
    "application/json" anywhere inside sends the body to [FileFromJSON],
    and every other one (a missing header included) to the reader of the
    flat format; an error of the decoder is returned without a request,
    and a decoded request carries the decoder's file and the request ID.
    The file of [ach.NewFile()] that the request starts with never shows. *)
Theorem decodeCreateFileRequest_dispatch NewFile r bs :
  (forall e, httpBody r = (bs, Some e) -> decodeCreate NewFile r = DecodeError e)
  /\ (httpBody r = (bs, None) ->
      (exists pre post,
          Header_Get r "Content-Type" = pre +:+ "application/json" +:+ post) ->
      decodeCreate NewFile r
      = match FileFromJSON bs with
        | (_, Some e) => DecodeError e
        | (f, None) => Decoded {| File := f; requestId := GetRequestId r |}
        end)
  /\ (httpBody r = (bs, None) ->
      ~ (exists pre post,
            Header_Get r "Content-Type" = pre +:+ "application/json" +:+ post) ->
      decodeCreate NewFile r
      = match ReaderRead bs with
        | (_, Some e) => DecodeError e
        | (f, None) => Decoded {| File := Some f; requestId := GetRequestId r |}
        end)
  /\ (forall NewFile', decodeCreate NewFile' r = decodeCreate NewFile r).
Proof.
  unfold decodeCreateFileRequest. split_and!.
  - by intros e ->.
  - intros -> Hjson. apply strings_Contains_spec in Hjson. rewrite Hjson.
    by destruct (FileFromJSON bs) as [f [e|]].
  - intros -> Hflat. rewrite <- strings_Contains_spec in Hflat.
    apply not_true_is_false in Hflat. rewrite Hflat.
    by destruct (ReaderRead bs) as [f [e|]].
  - intros NewFile'. destruct (httpBody r) as [bs' [e|]]; [done|].
    destruct (strings_Contains _ _).
    + by destruct (FileFromJSON bs') as [f [e|]].
    + by destruct (ReaderRead bs') as [f [e|]].
Qed.

(** On a file that is there, the create endpoint panics only where the
    check does, out of the range of [Batches]. *)
Lemma createFileEndpoint_panics_Some {Svc Repo : Type} `{Service Svc} `{Repository Repo}
    logger req (w : world Svc Repo) f p :
  File req = Some f ->
  fst (createFileEndpoint logger req w) = Panics p ->
  exists i n, p = IndexOutOfRange i n.
Proof.
  intros Hf. rewrite (createFileEndpoint_unfold _ _ _ _ Hf). cbv zeta.
  destruct (fileHasOldBatches_cases (clock w) (identified w f))
    as [(? & ? & ? & ? & _ & _ & _ & _ & ->)|[(_ & _ & ->)|(_ & _ & ->)]]; cbn.
  - done.
  - unfold callStoreFile. destruct (counted req), (bool_decide (ach.ID f = ""));
      cbn -[StoreFile identified]; destruct (StoreFile _ _);
      destruct (nonEmpty (requestId req) && logger); done.
  - intros [= <-]. by eexists _, _.
Qed.

(** X20: a create request that went through the decoder makes the create
    endpoint panic on a nil file only if [FileFromJSON] answered neither a
    file nor an error for the body; a request decoded from the flat format
    always carries a file. *)
Theorem createFileEndpoint_after_decode {Svc Repo : Type} `{Service Svc} `{Repository Repo}
    NewFile logger r req (w : world Svc Repo) :
  decodeCreate NewFile r = Decoded req ->
  (fst (createFileEndpoint logger req w) = Panics NilPointerDereference ->
   exists bs, httpBody r = (bs, None)
              /\ strings_Contains (Header_Get r "Content-Type") "application/json" = true
              /\ FileFromJSON bs = (None, None))
  /\ (strings_Contains (Header_Get r "Content-Type") "application/json" = false ->
      is_Some (File req)).
Proof.
  intros Hdec. split.
  - intros Hpanic. destruct (File req) as [f|] eqn:Hf.
    + destruct (createFileEndpoint_panics_Some _ _ _ _ _ Hf Hpanic) as (i & n & [=]).
    + revert Hdec Hf. unfold decodeCreateFileRequest.
      destruct (httpBody r) as [bs [e|]]; [done|].
      destruct (strings_Contains _ _).
      * destruct (FileFromJSON bs) as [f [e|]] eqn:Hj; [done|].
        intros [= <-]. cbn. intros ->. by exists bs.
      * destruct (ReaderRead bs) as [f [e|]]; [done|]. intros [= <-]. done.
  - intros Hflat. revert Hdec. unfold decodeCreateFileRequest.
    destruct (httpBody r) as [bs [e|]]; [done|]. rewrite Hflat.
    destruct (ReaderRead bs) as [f [e|]]; [done|]. intros [= <-]. by eexists.
Qed.


(** X22: a delete request that went through the decoder has [DeleteFile]
    called with the value of the route variable "id", is counted once in
    [filesDeleted], and gets the answer of [DeleteFile] in its response. *)
Theorem deleteFileEndpoint_after_decode {Svc Repo : Type} `{Service Svc}
    logger r req (w : world Svc Repo) :
  decodeDeleteFileRequest ErrBadRouting GetRequestId r = Decoded req ->
  exists id,
    httpVars r !! "id" = Some id
    /\ fst (deleteFileEndpoint logger req w)
       = Returns ({| deleteErr := fst (DeleteFile id (service w)) |}, None)
    /\ service (snd (deleteFileEndpoint logger req w)) = snd (DeleteFile id (service w))
    /\ filesDeleted (snd (deleteFileEndpoint logger req w)) = S (filesDeleted w).
Proof.
  unfold decodeDeleteFileRequest.
  destruct (httpVars r !! "id") as [id|]; [|done].
  intros [= <-]. exists id. split; [done|].
  unfold deleteFileEndpoint, callDeleteFile.
  unfold mbind, prog_bind, when, mret, prog_ret. cbn -[DeleteFile].
  destruct (DeleteFile _ _) as [err s'].
  destruct (nonEmpty _ && logger); cbn; by rewrite Nat.add_1_r.
Qed.

End DecoderProperties.

(** A JSON request with a character set in its content type. *)
Lemma decodeCreateFileRequest_dispatch_witness :
  let r := {| httpHeader := {[ "Content-Type" := "application/json; charset=utf-8" ]};
              httpVars := ∅;
              httpBody := ("{}", None) |} in
  decodeCreateFileRequest (fun _ => "r1") (sampleFile "new" [] [])
    (fun _ => (Some (sampleFile "json" [] []), None))
    (fun _ => (sampleFile "flat" [] [], None)) r
  = Decoded {| File := Some (sampleFile "json" [] []); requestId := "r1" |}.
Proof.
  cbv zeta.
  apply (proj1 (proj2 (decodeCreateFileRequest_dispatch (fun _ => "r1")
           (fun _ => (Some (sampleFile "json" [] []), None))
           (fun _ => (sampleFile "flat" [] [], None))
           (sampleFile "new" [] [])
           {| httpHeader := {[ "Content-Type" := "application/json; charset=utf-8" ]};
              httpVars := ∅;
              httpBody := ("{}", None) |} "{}"))).
  - reflexivity.
  - exists "", "; charset=utf-8". reflexivity.
Defined.

(** A request in the flat format, without content type. *)
Lemma createFileEndpoint_after_decode_witness :
  is_Some (File {| File := Some (sampleFile "flat" [] []); requestId := "r1" |}).
Proof.
  assert (Hdec : decodeCreateFileRequest (fun _ => "r1") (sampleFile "new" [] [])
                   (fun _ => (None, None))
                   (fun _ => (sampleFile "flat" [] [], None))
                   {| httpHeader := ∅; httpVars := ∅; httpBody := ("101 ...", None) |}
                 = Decoded {| File := Some (sampleFile "flat" [] []);
                              requestId := "r1" |}) by reflexivity.
  apply (proj2 (createFileEndpoint_after_decode _ _ _ _ true _ _ sampleWorld Hdec)).
  reflexivity.
Defined.


(** A delete request for an ID the store does not hold. *)
Lemma deleteFileEndpoint_after_decode_witness :
  let r := {| httpHeader := ∅; httpVars := {[ "id" := "nope" ]};
              httpBody := ("", None) |} in
  let req := {| deleteID := "nope"; deleteRequestId := "r1" |} in
  exists id,
    httpVars r !! "id" = Some id
    /\ fst (deleteFileEndpoint true req sampleWorld)
       = Returns ({| deleteErr := fst (DeleteFile id (service sampleWorld)) |}, None)
    /\ service (snd (deleteFileEndpoint true req sampleWorld))
       = snd (DeleteFile id (service sampleWorld))
    /\ filesDeleted (snd (deleteFileEndpoint true req sampleWorld))
       = S (filesDeleted sampleWorld).
Proof.
  cbv zeta.
  apply (deleteFileEndpoint_after_decode (errors_New "bad routing") (fun _ => "r1")
           true
           {| httpHeader := ∅; httpVars := {[ "id" := "nope" ]};
              httpBody := ("", None) |}
           {| deleteID := "nope"; deleteRequestId := "r1" |} sampleWorld).
  reflexivity.
Defined.

(** The stand-in service asked for the contents of a file it does not
    hold, and then of one it holds. *)
Example getFileContentsEndpoint_sample :
  let w := snd (createFileEndpoint true
                  {| File := Some (sampleFile "f1" [] []); requestId := "" |}
                  sampleWorld) in
  let w := {| service := repository w; repository := repository w;
              filesCreated := filesCreated w; filesDeleted := filesDeleted w;
              logged := logged w; clock := clock w;
              idStream := idStream w; idsTaken := idsTaken w |} in
  fst (getFileContentsEndpoint true
         {| getFileContentsID := "nope"; getFileContentsRequestId := "" |} w)
  = Returns (ContentsResponse {| getFileContentsErr := Some errNotFound |}, None)
  /\ fst (getFileContentsEndpoint true
            {| getFileContentsID := "f1"; getFileContentsRequestId := "" |} w)
     = Returns (ContentsReader (Some "f1"), None).
Proof. cbv zeta. split; reflexivity. Qed.
